(** * allcrypto-api: the user administration handlers of [main.go]

    The repository holds two revisions of [main.go].  They are the same
    program except for the [WHERE] clause of the five [UPDATE] statements
    issued by [userActionsHandler]: the first revision compares
    [username = $2], the second one [LOWER(username) = LOWER($2)].

    The development embeds the Go values the handlers work on (decoded JSON
    payloads, [float64] numbers, the [User] and [Response] structs), the
    [http.ResponseWriter] and the [*sql.DB] handle as explicit state, and the
    two handlers [listarUsuariosHandler] and [userActionsHandler]. *)

From Stdlib Require Import ZArith String Ascii List Bool Lia.
From Stdlib Require Import Floats.SpecFloat.
From stdpp Require Import base option list sorting gmap strings.

Import ListNotations.
Set Warnings "-register-all".
Local Open Scope string_scope.
Local Open Scope list_scope.
Local Open Scope Z_scope.

(** ** Go values *)

Module Go.

(** *** [float64]

    A [float64] is an IEEE 754 binary64 datum; [spec_float] is the Standard
    Library's description of one: a signed zero, a signed infinity, a NaN
    or [(-1)^s * m * 2^e]. *)

Definition float64 : Type := spec_float.

Definition prec : Z := 53.
Definition emax : Z := 1024.

(** The data that really are binary64 numbers (mantissa and exponent in
    range and canonical). *)
Definition is_binary64 (f : float64) : bool := valid_binary prec emax f.

(** *** [int]

    [int] is 64 bits wide on the platforms the server is built for. *)

Definition minInt : Z := - 2 ^ 63.
Definition maxInt : Z := 2 ^ 63 - 1.

Definition fits_int (z : Z) : bool := (minInt <=? z) && (z <=? maxInt).

(** The integral part of the magnitude [m * 2^e]: a left shift for [0 <= e],
    a right shift (which drops the fraction bits) for [e < 0]. *)
Definition integral_part (m : positive) (e : Z) : Z := Z.shiftl (Z.pos m) e.

(** The conversion [int(f)] of a [float64].  The fraction is discarded
    (truncation towards zero).  When the result does not fit [int] the
    language leaves the value to the implementation; the compiler emits a
    truncating convert instruction, whose result for an out-of-range operand
    and for a NaN is [minInt] on amd64, which is what is modelled. *)
Definition int_of_float64 (f : float64) : Z :=
  match f with
  | S754_zero _ => 0
  | S754_finite s m e =>
      let z := if s then - integral_part m e else integral_part m e in
      if fits_int z then z else minInt
  | S754_infinity _ | S754_nan => minInt
  end.

(** *** [interface{}] values produced by [encoding/json]

    Decoding JSON into an [interface{}] yields [nil] for [null], a [bool],
    a [float64] for every number, a [string], a [[]interface{}] or a
    [map[string]interface{}]. *)

Inductive iface : Type :=
| Nil
| Bool (b : bool)
| Float64 (f : float64)
| Str (s : string)
| Slice (l : list iface)
| Map (m : list (string * iface)).

(** [m[k]] on a [map[string]interface{}]: the [nil] interface for a key
    that is absent (and for every key of a nil map). *)
Definition index (m : gmap string iface) (k : string) : iface :=
  default Nil (m !! k).

(** The comma-ok type assertions [v.(string)], [v.(bool)], [v.(float64)]:
    the value and [true] when [v] holds that type, the zero value and
    [false] otherwise. *)
Definition assert_string (v : iface) : string * bool :=
  match v with Str s => (s, true) | _ => ("", false) end.

Definition assert_bool (v : iface) : bool * bool :=
  match v with Bool b => (b, true) | _ => (false, false) end.

Definition assert_float64 (v : iface) : float64 * bool :=
  match v with Float64 f => (f, true) | _ => (S754_zero false, false) end.

End Go.

(** ** The record store *)

Module Sql.

(** Modelled from the spec: the DDL of table [users] is not in the
    repository.  The columns are the ones the statements of [main.go] name;
    following the spec's data model every column but [ip] is NOT NULL, [id]
    is assigned by the store, [ip] has no default, and [username] is a
    case-insensitive unique key. *)
Record Row : Type := {
  id : Z;
  username : string;
  password : string;
  is_blocked : bool;
  renewal_date : string;
  ip : option string;
  indicacao : Z
}.

(** The [WHERE] clause of an [UPDATE]: [username = $2] in the first revision
    of [main.go], [LOWER(username) = LOWER($2)] in the second. *)
Inductive Where : Type :=
| username_eq
| lower_username_eq.

(** The [SET] clause of an [UPDATE], with the value bound to [$1]. *)
Inductive Set_ : Type :=
| set_password (v : string)
| set_is_blocked (v : bool)
| set_renewal_date (v : string)
| set_indicacao (v : Z)
| set_ip (v : string).

(** The statements of [main.go] together with their arguments:
    - [INSERT INTO users (username, password, is_blocked, renewal_date,
      indicacao) VALUES ($1, $2, false, $3, 0)],
    - [UPDATE users SET col = $1 WHERE ...],
    - [SELECT id, username, is_blocked, renewal_date, ip, indicacao FROM
      users ORDER BY id]. *)
Inductive Stmt : Type :=
| INSERT (username password renewal_date : string)
| UPDATE (s : Set_) (w : Where) (username : string)
| SELECT.

(** The [*sql.DB] handle: the table, the sequence that feeds [id], the
    error every call fails with while the connection is down, and the
    statements sent so far. *)
Record DB : Type := {
  users : list Row;
  users_id_seq : Z;
  outage : option string;
  trace : list Stmt
}.

(** [LOWER] of the store, on the ASCII letters. *)
Definition lower_ascii (c : ascii) : ascii :=
  let n := N_of_ascii c in
  if ((65 <=? n) && (n <=? 90))%N then ascii_of_N (n + 32) else c.

Fixpoint LOWER (s : string) : string :=
  match s with
  | EmptyString => EmptyString
  | String c s' => String (lower_ascii c) (LOWER s')
  end.

Definition selects (w : Where) (arg : string) (r : Row) : bool :=
  match w with
  | username_eq => String.eqb (username r) arg
  | lower_username_eq => String.eqb (LOWER (username r)) (LOWER arg)
  end.

Definition assign (s : Set_) (r : Row) : Row :=
  match s with
  | set_password v =>
      {| id := id r; username := username r; password := v;
         is_blocked := is_blocked r; renewal_date := renewal_date r;
         ip := ip r; indicacao := indicacao r |}
  | set_is_blocked v =>
      {| id := id r; username := username r; password := password r;
         is_blocked := v; renewal_date := renewal_date r;
         ip := ip r; indicacao := indicacao r |}
  | set_renewal_date v =>
      {| id := id r; username := username r; password := password r;
         is_blocked := is_blocked r; renewal_date := v;
         ip := ip r; indicacao := indicacao r |}
  | set_indicacao v =>
      {| id := id r; username := username r; password := password r;
         is_blocked := is_blocked r; renewal_date := renewal_date r;
         ip := ip r; indicacao := v |}
  | set_ip v =>
      {| id := id r; username := username r; password := password r;
         is_blocked := is_blocked r; renewal_date := renewal_date r;
         ip := Some v; indicacao := indicacao r |}
  end.

(** The row an [INSERT] adds: the three arguments, the two literals of the
    statement, and the defaults of the columns it does not name. *)
Definition inserted (seq : Z) (u p d : string) : Row :=
  {| id := seq; username := u; password := p; is_blocked := false;
     renewal_date := d; ip := None; indicacao := 0 |}.

(** Modelled from the spec: the unique key on [username], which compares
    without regard to case. *)
Definition duplicate_key (rows : list Row) (u : string) : bool :=
  existsb (fun r => String.eqb (LOWER (username r)) (LOWER u)) rows.

Definition unique_violation : string :=
  "pq: duplicate key value violates unique constraint".

Definition sent (db : DB) (q : Stmt) : DB :=
  {| users := users db; users_id_seq := users_id_seq db;
     outage := outage db; trace := trace db ++ [q] |}.

Definition with_users (db : DB) (rows : list Row) (seq : Z) : DB :=
  {| users := rows; users_id_seq := seq;
     outage := outage db; trace := trace db |}.

Definition update_rows (s : Set_) (w : Where) (arg : string)
  (rows : list Row) : list Row :=
  map (fun r => if selects w arg r then assign s r else r) rows.

Definition count_rows (w : Where) (arg : string) (rows : list Row) : Z :=
  Z.of_nat (length (filter (fun r => selects w arg r = true) rows)).

(** [db.Exec(query, args...)]: the handle after the call, and the error or
    the [RowsAffected] of the result. *)
Definition Exec (db : DB) (q : Stmt) : DB * (string + Z) :=
  let db := sent db q in
  match outage db with
  | Some e => (db, inl e)
  | None =>
      match q with
      | INSERT u p d =>
          if duplicate_key (users db) u then (db, inl unique_violation)
          else (with_users db
                  (users db ++ [inserted (users_id_seq db) u p d])
                  (users_id_seq db + 1),
                inr 1)
      | UPDATE s w arg =>
          (with_users db (update_rows s w arg (users db)) (users_id_seq db),
           inr (count_rows w arg (users db)))
      | SELECT => (db, inr (Z.of_nat (length (users db))))
      end
  end.

(** The tuples of the [SELECT]: the six columns it names, in that order. *)
Definition Tuple : Type := (Z * string * bool * string * option string * Z)%type.

Definition project (r : Row) : Tuple :=
  (id r, username r, is_blocked r, renewal_date r, ip r, indicacao r).

Definition id_le (a b : Tuple) : Prop :=
  match a, b with (ia, _, _, _, _, _), (ib, _, _, _, _, _) => ia <= ib end.

#[local] Instance id_le_dec : RelDecision id_le.
Proof.
  intros [[[[[ia ?] ?] ?] ?] ?] [[[[[ib ?] ?] ?] ?] ?]; simpl.
  apply Z_le_dec.
Defined.

(** [db.Query(query)]: the handle after the call, and the error or the
    result set, ordered by [id]. *)
Definition Query (db : DB) : DB * (string + list Tuple) :=
  let db := sent db SELECT in
  match outage db with
  | Some e => (db, inl e)
  | None => (db, inr (merge_sort id_le (map project (users db))))
  end.

End Sql.

(** ** [net/http] *)

Module Http.

Definition MethodGet : string := "GET".
Definition MethodPost : string := "POST".

Definition StatusOK : Z := 200.
Definition StatusBadRequest : Z := 400.
Definition StatusNotFound : Z := 404.
Definition StatusMethodNotAllowed : Z := 405.
Definition StatusInternalServerError : Z := 500.

(** What [json.NewDecoder(r.Body).Decode(&payload)] makes of the body, for
    [payload] a [map[string]interface{}]: an error when the body is not a
    JSON object or [null], the map otherwise (the nil map for [null]). *)
Inductive Body_ : Type :=
| Malformed
| Object (payload : gmap string Go.iface).

Record Request : Type := {
  Method : string;
  Body : Body_
}.

(** A JSON document, as [encoding/json] writes the values of this program
    (all the numbers it writes are integers). *)
Inductive JSON : Type :=
| JNull
| JBool (b : bool)
| JInt (z : Z)
| JString (s : string)
| JArray (l : list JSON)
| JObject (fields : list (string * JSON)).

(** The [http.ResponseWriter]: the header map, the status code once
    [WriteHeader] has been called, and the documents written to the body. *)
Record ResponseWriter : Type := {
  Header : gmap string string;
  StatusCode : option Z;
  Written : list JSON
}.

Definition NewWriter : ResponseWriter :=
  {| Header := ∅; StatusCode := None; Written := [] |}.

Definition Header_Set (w : ResponseWriter) (k v : string) : ResponseWriter :=
  {| Header := <[k := v]> (Header w); StatusCode := StatusCode w;
     Written := Written w |}.

(** [w.WriteHeader(code)]: only the first call sets the status. *)
Definition WriteHeader (w : ResponseWriter) (code : Z) : ResponseWriter :=
  {| Header := Header w;
     StatusCode := match StatusCode w with
                   | None => Some code
                   | Some c => Some c
                   end;
     Written := Written w |}.

(** [w.Write]: a write before [WriteHeader] sends status 200. *)
Definition Write (w : ResponseWriter) (doc : JSON) : ResponseWriter :=
  {| Header := Header w;
     StatusCode := match StatusCode w with
                   | None => Some StatusOK
                   | Some c => Some c
                   end;
     Written := Written w ++ [doc] |}.

End Http.

Import Http.

(** ** [main.go] *)

(** [type User struct], lines 204-212.  The [json] tags name the fields of
    the encoding; [Password] carries the tag ["-"]. *)
Record User : Type := {
  ID : Z;
  Username : string;
  Password : string;
  IsBlocked : bool;
  RenewalDate : string;
  IP : option string;
  Indicacao : Z
}.

(** [type Response struct], lines 214-217.  [Data] is an [interface{}]
    tagged [omitempty]: the program leaves it nil ([None]) or stores a
    [[]User] in it, the nil slice being the empty list. *)
Record Response : Type := {
  Message : string;
  Data : option (list User)
}.

Definition message (m : string) : Response := {| Message := m; Data := None |}.

(** [json.Marshal] of a [User]: the fields in declaration order under their
    tags, [Password] skipped, a nil [*string] as [null]. *)
Definition Marshal_User (u : User) : JSON :=
  JObject
    [ ("id", JInt (ID u));
      ("username", JString (Username u));
      ("is_blocked", JBool (IsBlocked u));
      ("renewal_date", JString (RenewalDate u));
      ("ip", match IP u with None => JNull | Some s => JString s end);
      ("indicacao", JInt (Indicacao u)) ].

(** [json.Marshal] of a [Response]: [data] is left out for a nil interface
    only; a nil slice stored in it is written as [null]. *)
Definition Marshal (r : Response) : JSON :=
  JObject
    (("message", JString (Message r)) ::
     match Data r with
     | None => []
     | Some [] => [("data", JNull)]
     | Some us => [("data", JArray (map Marshal_User us))]
     end).

(** [jsonResponse], lines 238-242. *)
Definition jsonResponse (w : ResponseWriter) (statusCode : Z)
  (data : Response) : ResponseWriter :=
  let w := Header_Set w "Content-Type" "application/json" in
  let w := WriteHeader w statusCode in
  Write w (Marshal data).

(** [rows.Scan(&u.ID, &u.Username, &u.IsBlocked, &u.RenewalDate, &u.IP,
    &u.Indicacao)] into a zero [User].  No column of the model is NULL but
    [ip], which is scanned into a pointer, so the conversion succeeds. *)
Definition Scan (t : Sql.Tuple) : string + User :=
  match t with
  | (i, u, b, d, a, n) =>
      inr {| ID := i; Username := u; Password := ""; IsBlocked := b;
             RenewalDate := d; IP := a; Indicacao := n |}
  end.

(** The loop [for rows.Next() { ... users = append(users, u) }] of lines
    257-264: the error of the first failing [Scan], or the users read. *)
Fixpoint scanRows (rows : list Sql.Tuple) (users : list User)
  : string + list User :=
  match rows with
  | [] => inr users
  | t :: rows' =>
      match Scan t with
      | inl err => inl err
      | inr u => scanRows rows' (users ++ [u])
      end
  end.

(** [listarUsuariosHandler], lines 244-267. *)
Definition listarUsuariosHandler (db : Sql.DB) (w : ResponseWriter)
  (r : Request) : Sql.DB * ResponseWriter :=
  if negb (String.eqb (Method r) MethodGet) then
    (db, jsonResponse w StatusMethodNotAllowed (message "Método não permitido"))
  else
    let (db, res) := Sql.Query db in
    match res with
    | inl err =>
        (db, jsonResponse w StatusInternalServerError
               (message ("Erro ao buscar usuários: " +:+ err)))
    | inr rows =>
        match scanRows rows [] with
        | inl err =>
            (db, jsonResponse w StatusInternalServerError
                   (message ("Erro ao ler dados do usuário: " +:+ err)))
        | inr users =>
            (db, jsonResponse w StatusOK
                   {| Message := "Usuários listados com sucesso";
                      Data := Some users |})
        end
    end.

(** The end of [userActionsHandler], lines 326-335, which every statement of
    the [switch] runs into. *)
Definition report (w : ResponseWriter) (action : string)
  (res : Sql.DB * (string + Z)) : Sql.DB * ResponseWriter :=
  let (db, result) := res in
  match result with
  | inl err =>
      (db, jsonResponse w StatusInternalServerError
             (message ("Erro ao executar ação '" +:+ action +:+ "': " +:+ err)))
  | inr rowsAffected =>
      if rowsAffected =? 0 then
        (db, jsonResponse w StatusNotFound
               (message "Nenhum usuário encontrado com o nome fornecido."))
      else
        (db, jsonResponse w StatusOK
               (message ("Ação '" +:+ action +:+ "' executada com sucesso!")))
  end.

(** [userActionsHandler].  [wh] is the [WHERE] clause of the revision:
    [Sql.username_eq] for lines 87-148, [Sql.lower_username_eq] for lines
    272-337; the two revisions do not differ otherwise. *)
Definition userActionsHandlerRev (wh : Sql.Where) (db : Sql.DB)
  (w : ResponseWriter) (r : Request) : Sql.DB * ResponseWriter :=
  if negb (String.eqb (Method r) MethodPost) then
    (db, jsonResponse w StatusMethodNotAllowed (message "Método não permitido"))
  else
    match Body r with
    | Malformed =>
        (db, jsonResponse w StatusBadRequest (message "Requisição inválida"))
    | Object payload =>
        let action := fst (Go.assert_string (Go.index payload "action")) in
        let username := fst (Go.assert_string (Go.index payload "username")) in
        if String.eqb action "inserirUsuario" then
          let password := fst (Go.assert_string (Go.index payload "password")) in
          let renewalDate :=
            fst (Go.assert_string (Go.index payload "renewal_date")) in
          report w action (Sql.Exec db (Sql.INSERT username password renewalDate))
        else if String.eqb action "atualizarSenha" then
          let newPassword :=
            fst (Go.assert_string (Go.index payload "new_password")) in
          report w action
            (Sql.Exec db (Sql.UPDATE (Sql.set_password newPassword) wh username))
        else if String.eqb action "bloquearUsuario" then
          let isBlocked := fst (Go.assert_bool (Go.index payload "is_blocked")) in
          report w action
            (Sql.Exec db (Sql.UPDATE (Sql.set_is_blocked isBlocked) wh username))
        else if String.eqb action "atualizarRenovacao" then
          let renewalDate :=
            fst (Go.assert_string (Go.index payload "renewal_date")) in
          report w action
            (Sql.Exec db
               (Sql.UPDATE (Sql.set_renewal_date renewalDate) wh username))
        else if String.eqb action "atualizarIndicacao" then
          let (indicacao, ok) := Go.assert_float64 (Go.index payload "indicacao") in
          if negb ok then
            (db, jsonResponse w StatusBadRequest
                   (message "Valor de indicação inválido"))
          else
            report w action
              (Sql.Exec db
                 (Sql.UPDATE (Sql.set_indicacao (Go.int_of_float64 indicacao))
                    wh username))
        else if String.eqb action "atualizarIP" then
          let novoIP := fst (Go.assert_string (Go.index payload "novo_ip")) in
          report w action
            (Sql.Exec db (Sql.UPDATE (Sql.set_ip novoIP) wh username))
        else
          (db, jsonResponse w StatusBadRequest (message "Ação desconhecida"))
    end.

(** The handler of the first revision (lines 87-148). *)
Definition userActionsHandler_rev1 := userActionsHandlerRev Sql.username_eq.

(** The handler of the second revision (lines 272-337). *)
Definition userActionsHandler := userActionsHandlerRev Sql.lower_username_eq.

(** ** Sample data *)

Definition alice : Sql.Row :=
  {| Sql.id := 1; Sql.username := "alice"; Sql.password := "s3cret";
     Sql.is_blocked := false; Sql.renewal_date := "2025-01-01";
     Sql.ip := None; Sql.indicacao := 0 |}.

Definition store (rows : list Sql.Row) (seq : Z) : Sql.DB :=
  {| Sql.users := rows; Sql.users_id_seq := seq; Sql.outage := None;
     Sql.trace := [] |}.

Definition post (payload : gmap string Go.iface) : Request :=
  {| Method := MethodPost; Body := Object payload |}.

Definition object (fields : list (string * Go.iface)) : gmap string Go.iface :=
  list_to_map fields.

(** 3.5, -2.9 (the nearest binary64) and 1e19, as binary64 data. *)
Definition f3_5 : Go.float64 := S754_finite false 7881299347898368 (-51).
Definition fm2_9 : Go.float64 := S754_finite true 6530219459687219 (-51).
Definition f1e19 : Go.float64 := S754_finite false 4882812500000000 11.

(** ** The [switch] of [userActionsHandler] in isolation *)

Definition actionOf (payload : gmap string Go.iface) : string :=
  fst (Go.assert_string (Go.index payload "action")).

Definition stringOf (payload : gmap string Go.iface) (k : string) : string :=
  fst (Go.assert_string (Go.index payload k)).

Definition boolOf (payload : gmap string Go.iface) (k : string) : bool :=
  fst (Go.assert_bool (Go.index payload k)).

(** What the [switch] of lines 291-325 comes to: the message of an early
    return, or the statement handed to [db.Exec]. *)
Definition statementOf (wh : Sql.Where) (payload : gmap string Go.iface)
  : string + Sql.Stmt :=
  let action := actionOf payload in
  let username := stringOf payload "username" in
  if String.eqb action "inserirUsuario" then
    inr (Sql.INSERT username (stringOf payload "password")
           (stringOf payload "renewal_date"))
  else if String.eqb action "atualizarSenha" then
    inr (Sql.UPDATE (Sql.set_password (stringOf payload "new_password"))
           wh username)
  else if String.eqb action "bloquearUsuario" then
    inr (Sql.UPDATE (Sql.set_is_blocked (boolOf payload "is_blocked"))
           wh username)
  else if String.eqb action "atualizarRenovacao" then
    inr (Sql.UPDATE (Sql.set_renewal_date (stringOf payload "renewal_date"))
           wh username)
  else if String.eqb action "atualizarIndicacao" then
    match Go.index payload "indicacao" with
    | Go.Float64 f =>
        inr (Sql.UPDATE (Sql.set_indicacao (Go.int_of_float64 f)) wh username)
    | _ => inl "Valor de indicação inválido"
    end
  else if String.eqb action "atualizarIP" then
    inr (Sql.UPDATE (Sql.set_ip (stringOf payload "novo_ip")) wh username)
  else inl "Ação desconhecida".

(** The six action tags of the [switch]. *)
Definition recognized : list string :=
  [ "inserirUsuario"; "atualizarSenha"; "bloquearUsuario";
    "atualizarRenovacao"; "atualizarIndicacao"; "atualizarIP" ].

Definition is_recognized (action : string) : bool :=
  existsb (String.eqb action) recognized.


(** ** The vocabulary of the specification *)

(** The number a binary64 datum stands for, as a fraction [n / d] with
    [0 < d]; the infinities and NaN stand for none. *)
Definition fraction (f : Go.float64) : option (Z * Z) :=
  match f with
  | S754_zero _ => Some (0, 1)
  | S754_finite s m e =>
      let n := if s then Z.neg m else Z.pos m in
      Some (if 0 <=? e then (n * 2 ^ e, 1) else (n, 2 ^ (- e)))
  | S754_infinity _ | S754_nan => None
  end.

(** Truncation towards zero: the quotient that rounds towards zero. *)
Definition truncation (f : Go.float64) : option Z :=
  match fraction f with
  | Some (n, d) => Some (Z.quot n d)
  | None => None
  end.

(** A whole number: nothing is left over by the truncation. *)
Definition whole (f : Go.float64) : bool :=
  match fraction f with
  | Some (n, d) => Z.rem n d =? 0
  | None => false
  end.

(** The outcomes of section 7 of the specification and their status codes
    (section 4.2). *)
Inductive Outcome : Type :=
| MethodNotAllowed
| ValidationError
| ExecutionError
| NotFound
| Success.

Definition status (o : Outcome) : Z :=
  match o with
  | MethodNotAllowed => 405
  | ValidationError => 400
  | ExecutionError => 500
  | NotFound => 404
  | Success => 200
  end.

(** The outcome of a request to the action endpoint: a wrong method; a
    malformed body, an unrecognized action or an invalid field, found before
    any store access; a failure of the store; no row affected; success. *)
Definition outcome (wh : Sql.Where) (db : Sql.DB) (r : Request) : Outcome :=
  if negb (String.eqb (Method r) MethodPost) then MethodNotAllowed
  else
    match Body r with
    | Malformed => ValidationError
    | Object payload =>
        match statementOf wh payload with
        | inl _ => ValidationError
        | inr q =>
            match snd (Sql.Exec db q) with
            | inl _ => ExecutionError
            | inr n => if n =? 0 then NotFound else Success
            end
        end
    end.

(** Two tables that differ in nothing but the passwords: the rows are equal
    once the passwords are blanked. *)
Definition redact (r : Sql.Row) : Sql.Row :=
  {| Sql.id := Sql.id r; Sql.username := Sql.username r; Sql.password := "";
     Sql.is_blocked := Sql.is_blocked r;
     Sql.renewal_date := Sql.renewal_date r;
     Sql.ip := Sql.ip r; Sql.indicacao := Sql.indicacao r |}.

Definition differ_in_passwords_only (db1 db2 : Sql.DB) : Prop :=
  map redact (Sql.users db1) = map redact (Sql.users db2) /\
  Sql.users_id_seq db1 = Sql.users_id_seq db2 /\
  Sql.outage db1 = Sql.outage db2 /\
  Sql.trace db1 = Sql.trace db2.

(** The payload fields the [switch] reads with a discarded [ok], each with
    the zero value of the type it is asserted to. *)
Definition defaulted : list (string * Go.iface) :=
  [ ("username", Go.Str ""); ("password", Go.Str "");
    ("renewal_date", Go.Str ""); ("new_password", Go.Str "");
    ("is_blocked", Go.Bool false); ("novo_ip", Go.Str "") ].

(** [v] holds the dynamic type of [zero] (a string or a bool). *)
Definition same_type (zero v : Go.iface) : bool :=
  match zero, v with
  | Go.Str _, Go.Str _ => true
  | Go.Bool _, Go.Bool _ => true
  | _, _ => false
  end.

(** ** Observations on requests and tables *)

(** The statement a request to the action endpoint hands to [db.Exec], if
    it gets that far: the method is POST, the body decodes and the [switch]
    does not return early. *)
Definition statementSent (wh : Sql.Where) (r : Request) : option Sql.Stmt :=
  if String.eqb (Method r) MethodPost then
    match Body r with
    | Malformed => None
    | Object payload =>
        match statementOf wh payload with
        | inl _ => None
        | inr q => Some q
        end
    end
  else None.

(** The [User] the listing loop reads from a row: the six columns of the
    [SELECT], the password at its zero value. *)
Definition listed (r : Sql.Row) : User :=
  {| ID := Sql.id r; Username := Sql.username r; Password := "";
     IsBlocked := Sql.is_blocked r; RenewalDate := Sql.renewal_date r;
     IP := Sql.ip r; Indicacao := Sql.indicacao r |}.

(** The [User] a tuple of the result set is scanned into. *)
Definition scanned (t : Sql.Tuple) : User :=
  match t with
  | (i, u, b, d, a, n) =>
      {| ID := i; Username := u; Password := ""; IsBlocked := b;
         RenewalDate := d; IP := a; Indicacao := n |}
  end.

Definition ID_le (a b : User) : Prop := ID a <= ID b.

(** The row without the column the [UPDATE] of an action assigns. *)
Definition forget (action : string) (r : Sql.Row) : Sql.Row :=
  if String.eqb action "atualizarSenha" then
    {| Sql.id := Sql.id r; Sql.username := Sql.username r; Sql.password := "";
       Sql.is_blocked := Sql.is_blocked r;
       Sql.renewal_date := Sql.renewal_date r;
       Sql.ip := Sql.ip r; Sql.indicacao := Sql.indicacao r |}
  else if String.eqb action "bloquearUsuario" then
    {| Sql.id := Sql.id r; Sql.username := Sql.username r;
       Sql.password := Sql.password r; Sql.is_blocked := false;
       Sql.renewal_date := Sql.renewal_date r;
       Sql.ip := Sql.ip r; Sql.indicacao := Sql.indicacao r |}
  else if String.eqb action "atualizarRenovacao" then
    {| Sql.id := Sql.id r; Sql.username := Sql.username r;
       Sql.password := Sql.password r; Sql.is_blocked := Sql.is_blocked r;
       Sql.renewal_date := "";
       Sql.ip := Sql.ip r; Sql.indicacao := Sql.indicacao r |}
  else if String.eqb action "atualizarIndicacao" then
    {| Sql.id := Sql.id r; Sql.username := Sql.username r;
       Sql.password := Sql.password r; Sql.is_blocked := Sql.is_blocked r;
       Sql.renewal_date := Sql.renewal_date r;
       Sql.ip := Sql.ip r; Sql.indicacao := 0 |}
  else if String.eqb action "atualizarIP" then
    {| Sql.id := Sql.id r; Sql.username := Sql.username r;
       Sql.password := Sql.password r; Sql.is_blocked := Sql.is_blocked r;
       Sql.renewal_date := Sql.renewal_date r;
       Sql.ip := None; Sql.indicacao := Sql.indicacao r |}
  else r.

(** The key a [WHERE] clause compares: the username as stored, or its
    [LOWER]. *)
Definition key (wh : Sql.Where) (u : string) : string :=
  match wh with
  | Sql.username_eq => u
  | Sql.lower_username_eq => Sql.LOWER u
  end.

(** ** Start-up: [conectarBD] and [main] *)

Module Os.

(** [os.Getenv]: the empty string for a variable that is not set. *)
Definition Getenv (env : gmap string string) (k : string) : string :=
  default "" (env !! k).

End Os.

(** What the process does to the outside while it starts: calls of
    [database/sql] ([sql.Open] with whether it succeeded), lines on standard
    output and on the logger, the exit of [log.Fatal], and the call of
    [http.ListenAndServe]. *)
Inductive Event : Type :=
| sql_Open (connStr : string) (ok : bool)
| db_Ping
| db_Close
| fmt_Println (line : string)
| log_Printf (line : string)
| log_Fatal (line : string)
| ListenAndServe (addr : string).

(** How [conectarBD] ends: the process exits in [log.Fatal], or the function
    returns [(nil, err)] or [(db, nil)]. *)
Inductive Connection : Type :=
| Exited
| Failed (err : string)
| Connected (connStr : string).

Section Startup.

(** The driver: the error of [sql.Open("postgres", connStr)] and of
    [db.Ping()] on the handle opened with [connStr], if any. *)
Variable open_error : string -> option string.
Variable ping_error : string -> option string.

(** [conectarBD], lines 219-236. *)
Definition conectarBD (env : gmap string string) : list Event * Connection :=
  let connStr := Os.Getenv env "DATABASE_URL" in
  if String.eqb connStr "" then
    ([log_Fatal "Variável de ambiente DATABASE_URL não definida."], Exited)
  else
    match open_error connStr with
    | Some err =>
        ([sql_Open connStr false],
         Failed ("erro ao conectar ao banco de dados: " +:+ err))
    | None =>
        match ping_error connStr with
        | Some err =>
            ([sql_Open connStr true; db_Ping; db_Close],
             Failed ("erro ao testar conexão com o banco: " +:+ err))
        | None =>
            ([sql_Open connStr true; db_Ping;
              fmt_Println "Conexão com o banco de dados bem-sucedida!"],
             Connected connStr)
        end
    end.


End Startup.

(** The handles that are open after a run: one per [sql.Open] that
    succeeded, less one per [db.Close]. *)
Fixpoint open_handles (events : list Event) : Z :=
  match events with
  | [] => 0
  | sql_Open _ true :: rest => open_handles rest + 1
  | db_Close :: rest => open_handles rest - 1
  | _ :: rest => open_handles rest
  end.
(** ** Basic facts *)

(** [switch tac] walks down the chain of [if String.eqb ... then ... else]
    of the goal: it runs [tac] on each [case] and leaves the [default]. *)
Ltac switch tac :=
  repeat match goal with
         | |- context [if String.eqb ?a ?b then _ else _] =>
             destruct (String.eqb a b); [tac|]
         end.

Lemma userActionsHandlerRev_post wh db w payload :
  userActionsHandlerRev wh db w (post payload) =
  match statementOf wh payload with
  | inl m => (db, jsonResponse w StatusBadRequest (message m))
  | inr q => report w (actionOf payload) (Sql.Exec db q)
  end.
Proof.
  unfold userActionsHandlerRev, statementOf, actionOf, stringOf, boolOf, post.
  cbn [Method Body negb].
  change (String.eqb MethodPost MethodPost) with true. cbn [negb].
  switch ltac:(try reflexivity); try reflexivity.
  destruct (Go.index payload "indicacao"); reflexivity.
Qed.

Lemma Exec_trace db q :
  Sql.trace (fst (Sql.Exec db q)) = Sql.trace db ++ [q].
Proof.
  unfold Sql.Exec. cbn [Sql.outage Sql.sent].
  destruct (Sql.outage db); [reflexivity|].
  destruct q; cbn [Sql.users Sql.sent]; try reflexivity.
  destruct (Sql.duplicate_key _ _); reflexivity.
Qed.

Lemma Exec_outage db q :
  Sql.outage (fst (Sql.Exec db q)) = Sql.outage db.
Proof.
  unfold Sql.Exec. cbn [Sql.outage Sql.sent].
  destruct (Sql.outage db) eqn:E; [exact E|].
  destruct q; cbn [Sql.users Sql.sent]; try exact E.
  destruct (Sql.duplicate_key _ _); exact E.
Qed.

Lemma report_fst w action res : fst (report w action res) = fst res.
Proof.
  destruct res as [db [err|n]]; cbn [report fst]; [reflexivity|].
  destruct (n =? 0); reflexivity.
Qed.

Lemma assign_id s r : Sql.id (Sql.assign s r) = Sql.id r.
Proof. destruct s; reflexivity. Qed.

Lemma update_rows_ids s w arg rows :
  map Sql.id (Sql.update_rows s w arg rows) = map Sql.id rows.
Proof.
  unfold Sql.update_rows. induction rows as [|r rows IH]; [reflexivity|].
  cbn [map]. rewrite IH. destruct (Sql.selects w arg r);
    [rewrite assign_id|]; reflexivity.
Qed.

(** An [UPDATE] that affects no row leaves the table as it was. *)
Lemma update_rows_none s w arg rows :
  Sql.count_rows w arg rows = 0 -> Sql.update_rows s w arg rows = rows.
Proof.
  unfold Sql.count_rows, Sql.update_rows.
  induction rows as [|r rows IH]; [reflexivity|].
  rewrite filter_cons. cbn [map].
  destruct (Sql.selects w arg r) eqn:E.
  - rewrite decide_True by reflexivity. cbn [length]. lia.
  - rewrite decide_False by discriminate. intros H. rewrite (IH H). reflexivity.
Qed.

Lemma jsonResponse_Written w code data :
  Written (jsonResponse w code data) = Written w ++ [Marshal data].
Proof. reflexivity. Qed.

Lemma jsonResponse_Header w code data :
  Header (jsonResponse w code data) !! "Content-Type" = Some "application/json".
Proof. unfold jsonResponse. cbn. apply lookup_insert_eq. Qed.

(** On a writer whose header is not yet written, [jsonResponse] sends its
    status code. *)
Lemma jsonResponse_NewWriter code m :
  jsonResponse NewWriter code (message m) =
  {| Header := {[ "Content-Type" := "application/json" ]};
     StatusCode := Some code;
     Written := [JObject [("message", JString m)]] |}.
Proof. reflexivity. Qed.

Lemma not_recognized action :
  is_recognized action = false ->
  String.eqb action "inserirUsuario" = false /\
  String.eqb action "atualizarSenha" = false /\
  String.eqb action "bloquearUsuario" = false /\
  String.eqb action "atualizarRenovacao" = false /\
  String.eqb action "atualizarIndicacao" = false /\
  String.eqb action "atualizarIP" = false.
Proof.
  unfold is_recognized, recognized. cbn [existsb].
  rewrite !orb_false_iff. tauto.
Qed.

(** ** Numbers *)

Lemma integral_part_shift_left m e :
  0 <= e -> Go.integral_part m e = Z.pos m * 2 ^ e.
Proof. intros He. unfold Go.integral_part. apply Z.shiftl_mul_pow2, He. Qed.

Lemma integral_part_shift_right m e :
  e < 0 -> Go.integral_part m e = Z.quot (Z.pos m) (2 ^ (- e)).
Proof.
  intros He. unfold Go.integral_part.
  assert (Hd : 0 < 2 ^ (- e)) by (apply Z.pow_pos_nonneg; lia).
  replace (Z.shiftl (Z.pos m) e) with (Z.shiftr (Z.pos m) (- e))
    by (rewrite <- Z.shiftl_opp_r, Z.opp_involutive; reflexivity).
  rewrite Z.shiftr_div_pow2 by lia.
  symmetry. apply Z.quot_div_nonneg; lia.
Qed.

(** Inside the range of [int] the conversion is the truncation towards
    zero of the number the [float64] stands for. *)
Lemma int_of_float64_truncation f z :
  truncation f = Some z -> Go.fits_int z = true -> Go.int_of_float64 f = z.
Proof.
  destruct f as [s| s | |s m e]; cbn [truncation fraction Go.int_of_float64];
    try discriminate.
  - intros [= <-] _. reflexivity.
  - destruct (Z.leb_spec 0 e) as [He|He]; intros [= <-].
    + rewrite Z.quot_1_r, integral_part_shift_left by exact He.
      replace (- (Z.pos m * 2 ^ e)) with (Z.neg m * 2 ^ e) by lia.
      destruct s; intros ->; reflexivity.
    + assert (Hd : 0 < 2 ^ (- e)) by (apply Z.pow_pos_nonneg; lia).
      rewrite integral_part_shift_right by exact He.
      rewrite <- Z.quot_opp_l by lia.
      change (- Z.pos m) with (Z.neg m).
      destruct s; intros ->; reflexivity.
Qed.

(** ** Validation *)

(** C6.  A payload whose action tag is none of the six recognized strings
    (a missing or non-string tag counts as the empty string) gets the 400
    envelope "Ação desconhecida"; the handle comes back as it was, without a
    statement sent. *)
Theorem unknown_action_rejected wh db w payload :
  is_recognized (actionOf payload) = false ->
  userActionsHandlerRev wh db w (post payload) =
  (db, jsonResponse w StatusBadRequest (message "Ação desconhecida")).
Proof.
  intros H. apply not_recognized in H as (H1 & H2 & H3 & H4 & H5 & H6).
  rewrite userActionsHandlerRev_post. unfold statementOf.
  rewrite H1, H2, H3, H4, H5, H6. reflexivity.
Qed.

Lemma unknown_action_rejected_witness :
  userActionsHandler (store [alice] 2) NewWriter
    (post (object [("action", Go.Str "deleteEverything")])) =
  (store [alice] 2,
   jsonResponse NewWriter StatusBadRequest (message "Ação desconhecida")).
Proof.
  apply (unknown_action_rejected Sql.lower_username_eq (store [alice] 2)
           NewWriter (object [("action", Go.Str "deleteEverything")])).
  vm_compute. reflexivity.
Defined.

Lemma statementOf_indicacao wh payload :
  actionOf payload = "atualizarIndicacao" ->
  statementOf wh payload =
  match Go.index payload "indicacao" with
  | Go.Float64 f =>
      inr (Sql.UPDATE (Sql.set_indicacao (Go.int_of_float64 f)) wh
             (stringOf payload "username"))
  | _ => inl "Valor de indicação inválido"
  end.
Proof. intros H. unfold statementOf. rewrite H. reflexivity. Qed.

(** C1, as the code has it.  For [atualizarIndicacao] a value of
    [indicacao] that is absent or not a JSON number gets the 400 envelope
    "Valor de indicação inválido" at once, the handle untouched; every
    number, whole or not, passes and one [UPDATE] is sent to the store. *)
Theorem referral_must_be_a_number wh db w payload :
  actionOf payload = "atualizarIndicacao" ->
  match Go.index payload "indicacao" with
  | Go.Float64 f =>
      Sql.trace (fst (userActionsHandlerRev wh db w (post payload))) =
      Sql.trace db ++
        [Sql.UPDATE (Sql.set_indicacao (Go.int_of_float64 f)) wh
           (stringOf payload "username")]
  | _ =>
      userActionsHandlerRev wh db w (post payload) =
      (db, jsonResponse w StatusBadRequest
             (message "Valor de indicação inválido"))
  end.
Proof.
  intros H. rewrite userActionsHandlerRev_post, (statementOf_indicacao _ _ H).
  destruct (Go.index payload "indicacao"); try reflexivity.
  rewrite report_fst. apply Exec_trace.
Qed.

Lemma referral_must_be_a_number_witness :
  userActionsHandler (store [alice] 2) NewWriter
    (post (object [("action", Go.Str "atualizarIndicacao");
                   ("username", Go.Str "alice");
                   ("indicacao", Go.Str "3")])) =
  (store [alice] 2,
   jsonResponse NewWriter StatusBadRequest
     (message "Valor de indicação inválido")).
Proof.
  apply (referral_must_be_a_number Sql.lower_username_eq (store [alice] 2)
           NewWriter
           (object [("action", Go.Str "atualizarIndicacao");
                    ("username", Go.Str "alice");
                    ("indicacao", Go.Str "3")])).
  vm_compute. reflexivity.
Defined.

(** C1 fails as written: 3.5 is a binary64 number that is not whole, yet the
    request is answered 200, an [UPDATE] is sent and the row of alice now
    carries 3. *)
Lemma fractional_referral_reaches_store :
  Go.is_binary64 f3_5 = true /\ whole f3_5 = false /\
  userActionsHandler (store [alice] 2) NewWriter
    (post (object [("action", Go.Str "atualizarIndicacao");
                   ("username", Go.Str "alice");
                   ("indicacao", Go.Float64 f3_5)])) =
  ({| Sql.users := [Sql.assign (Sql.set_indicacao 3) alice];
      Sql.users_id_seq := 2; Sql.outage := None;
      Sql.trace :=
        [Sql.UPDATE (Sql.set_indicacao 3) Sql.lower_username_eq "alice"] |},
   jsonResponse NewWriter StatusOK
     (message "Ação 'atualizarIndicacao' executada com sucesso!")).
Proof. repeat split; vm_compute; reflexivity. Qed.

(** C10, within the range of [int].  For [atualizarIndicacao] every number
    passes the validation and the [UPDATE] that binds [int(indicacao)] is
    executed; when the truncation towards zero of the number fits the 64
    bits of [int], that truncation is the value bound. *)
Theorem referral_is_truncated wh db w payload f :
  actionOf payload = "atualizarIndicacao" ->
  Go.index payload "indicacao" = Go.Float64 f ->
  userActionsHandlerRev wh db w (post payload) =
  report w "atualizarIndicacao"
    (Sql.Exec db
       (Sql.UPDATE (Sql.set_indicacao (Go.int_of_float64 f)) wh
          (stringOf payload "username"))) /\
  forall z,
    truncation f = Some z -> Go.fits_int z = true -> Go.int_of_float64 f = z.
Proof.
  intros Ha Hf. split; [|apply int_of_float64_truncation].
  rewrite userActionsHandlerRev_post, (statementOf_indicacao _ _ Ha), Hf, Ha.
  reflexivity.
Qed.

Lemma referral_is_truncated_witness :
  userActionsHandler (store [alice] 2) NewWriter
    (post (object [("action", Go.Str "atualizarIndicacao");
                   ("username", Go.Str "alice");
                   ("indicacao", Go.Float64 fm2_9)])) =
  report NewWriter "atualizarIndicacao"
    (Sql.Exec (store [alice] 2)
       (Sql.UPDATE (Sql.set_indicacao (Go.int_of_float64 fm2_9))
          Sql.lower_username_eq "alice")) /\
  Go.int_of_float64 fm2_9 = -2.
Proof.
  destruct (referral_is_truncated Sql.lower_username_eq (store [alice] 2)
              NewWriter
              (object [("action", Go.Str "atualizarIndicacao");
                       ("username", Go.Str "alice");
                       ("indicacao", Go.Float64 fm2_9)])
              fm2_9 eq_refl eq_refl) as [H1 H2].
  split; [exact H1|]. apply H2; vm_compute; reflexivity.
Defined.

(** The two numbers the claim names. *)
Example int_of_3_5 :
  Go.is_binary64 f3_5 = true /\ truncation f3_5 = Some 3 /\
  Go.int_of_float64 f3_5 = 3.
Proof. repeat split. Qed.

Example int_of_minus_2_9 :
  Go.is_binary64 fm2_9 = true /\ truncation fm2_9 = Some (-2) /\
  Go.int_of_float64 fm2_9 = -2.
Proof. repeat split. Qed.

(** C10 fails as written outside that range: 1e19 is a binary64 number whose
    truncation is 10^19, and the value bound in the [UPDATE], and stored for
    alice, is [minInt]. *)
Lemma huge_referral_is_not_truncated :
  Go.is_binary64 f1e19 = true /\
  truncation f1e19 = Some (10 ^ 19) /\
  fst (userActionsHandler (store [alice] 2) NewWriter
         (post (object [("action", Go.Str "atualizarIndicacao");
                        ("username", Go.Str "alice");
                        ("indicacao", Go.Float64 f1e19)]))) =
  {| Sql.users := [Sql.assign (Sql.set_indicacao (- 2 ^ 63)) alice];
     Sql.users_id_seq := 2; Sql.outage := None;
     Sql.trace :=
       [Sql.UPDATE (Sql.set_indicacao (- 2 ^ 63)) Sql.lower_username_eq
          "alice"] |} /\
  - 2 ^ 63 <> 10 ^ 19.
Proof. repeat split; try (vm_compute; reflexivity). lia. Qed.

(** ** Statements and their results *)

Lemma report_snd w action res1 res2 :
  snd res1 = snd res2 ->
  snd (report w action res1) = snd (report w action res2).
Proof.
  destruct res1 as [db1 r1], res2 as [db2 r2]. cbn [snd]. intros ->.
  unfold report. destruct r2 as [err|n]; [reflexivity|].
  destruct (n =? 0); reflexivity.
Qed.

(** A statement that reports no affected row has left the table alone. *)
Lemma Exec_zero_rows db q db' :
  Sql.Exec db q = (db', inr 0) -> Sql.users db' = Sql.users db.
Proof.
  unfold Sql.Exec. cbn [Sql.outage Sql.sent Sql.users].
  destruct (Sql.outage db); [discriminate|].
  destruct q as [u p d|s wh arg|].
  - destruct (Sql.duplicate_key _ _); discriminate.
  - intros [= <- H]. cbn [Sql.users Sql.with_users].
    apply update_rows_none, H.
  - intros [= <- _]. reflexivity.
Qed.

(** A statement that fails has left the table alone. *)
Lemma Exec_error db q db' err :
  Sql.Exec db q = (db', inl err) -> db' = Sql.sent db q.
Proof.
  unfold Sql.Exec. cbn [Sql.outage Sql.sent Sql.users].
  destruct (Sql.outage db); [intros [= <- _]; reflexivity|].
  destruct q as [u p d|s wh arg|]; try discriminate.
  destruct (Sql.duplicate_key _ _); [|discriminate].
  intros [= <- _]. reflexivity.
Qed.

(** No statement removes a row or changes an [id]; only a successful
    [INSERT] adds one. *)
Lemma Exec_ids db q :
  map Sql.id (Sql.users (fst (Sql.Exec db q))) = map Sql.id (Sql.users db) \/
  exists u p d,
    q = Sql.INSERT u p d /\ snd (Sql.Exec db q) = inr 1 /\
    Sql.users (fst (Sql.Exec db q)) =
    Sql.users db ++ [Sql.inserted (Sql.users_id_seq db) u p d].
Proof.
  unfold Sql.Exec. cbn [Sql.outage Sql.sent Sql.users Sql.users_id_seq].
  destruct (Sql.outage db); [left; reflexivity|].
  destruct q as [u p d|s wh arg|].
  - destruct (Sql.duplicate_key _ _); [left; reflexivity|].
    right. exists u, p, d. repeat split.
  - left. cbn [fst Sql.users Sql.with_users]. apply update_rows_ids.
  - left. reflexivity.
Qed.

(** ** Matching of the username *)

Lemma selects_lower u1 u2 r :
  Sql.LOWER u1 = Sql.LOWER u2 ->
  Sql.selects Sql.lower_username_eq u1 r =
  Sql.selects Sql.lower_username_eq u2 r.
Proof. intros H. unfold Sql.selects. rewrite H. reflexivity. Qed.

Lemma update_rows_lower s u1 u2 rows :
  Sql.LOWER u1 = Sql.LOWER u2 ->
  Sql.update_rows s Sql.lower_username_eq u1 rows =
  Sql.update_rows s Sql.lower_username_eq u2 rows.
Proof.
  intros H. unfold Sql.update_rows. apply map_ext. intros r.
  rewrite (selects_lower u1 u2 r H). reflexivity.
Qed.

Lemma count_rows_lower u1 u2 rows :
  Sql.LOWER u1 = Sql.LOWER u2 ->
  Sql.count_rows Sql.lower_username_eq u1 rows =
  Sql.count_rows Sql.lower_username_eq u2 rows.
Proof.
  intros H. unfold Sql.count_rows. do 2 f_equal.
  induction rows as [|r rows IH]; [reflexivity|].
  rewrite !filter_cons, (selects_lower u1 u2 r H), IH. reflexivity.
Qed.

Lemma Exec_update_lower db s u1 u2 :
  Sql.LOWER u1 = Sql.LOWER u2 ->
  snd (Sql.Exec db (Sql.UPDATE s Sql.lower_username_eq u1)) =
  snd (Sql.Exec db (Sql.UPDATE s Sql.lower_username_eq u2)) /\
  Sql.users (fst (Sql.Exec db (Sql.UPDATE s Sql.lower_username_eq u1))) =
  Sql.users (fst (Sql.Exec db (Sql.UPDATE s Sql.lower_username_eq u2))).
Proof.
  intros H. unfold Sql.Exec. cbn [Sql.outage Sql.sent Sql.users].
  destruct (Sql.outage db); [split; reflexivity|].
  cbn [fst snd Sql.users Sql.with_users].
  rewrite (update_rows_lower s u1 u2 _ H), (count_rows_lower u1 u2 _ H).
  split; reflexivity.
Qed.

Lemma index_insert_eq payload k v : Go.index (<[k := v]> payload) k = v.
Proof. unfold Go.index. rewrite lookup_insert_eq. reflexivity. Qed.

Lemma index_insert_ne payload k k' v :
  k <> k' -> Go.index (<[k := v]> payload) k' = Go.index payload k'.
Proof. intros H. unfold Go.index. rewrite lookup_insert_ne by exact H. reflexivity. Qed.

(** X8.  The second revision: for the five updating actions, two usernames
    that differ in letter case only get the same response and leave the
    same table. *)
Lemma userActionsHandler_ignores_case db w payload u1 u2 :
  Sql.LOWER u1 = Sql.LOWER u2 ->
  actionOf payload <> "inserirUsuario" ->
  snd (userActionsHandler db w (post (<["username" := Go.Str u1]> payload))) =
  snd (userActionsHandler db w (post (<["username" := Go.Str u2]> payload))) /\
  Sql.users
    (fst (userActionsHandler db w (post (<["username" := Go.Str u1]> payload)))) =
  Sql.users
    (fst (userActionsHandler db w (post (<["username" := Go.Str u2]> payload)))).
Proof.
  intros H Hact. unfold userActionsHandler.
  rewrite !userActionsHandlerRev_post.
  assert (Ha : forall u,
             actionOf (<["username" := Go.Str u]> payload) = actionOf payload).
  { intros u. unfold actionOf. rewrite index_insert_ne by discriminate.
    reflexivity. }
  unfold statementOf. rewrite !Ha. unfold stringOf, boolOf.
  rewrite !index_insert_eq, !index_insert_ne by discriminate.
  cbn [Go.assert_string fst].
  destruct (String.eqb_spec (actionOf payload) "inserirUsuario")
    as [E|_]; [contradiction|].
  pose proof (Exec_update_lower db) as Hx.
  switch ltac:(rewrite ?report_fst;
               try (split; [apply report_snd|]; apply Hx, H)).
  - destruct (Go.index payload "indicacao"); try (split; reflexivity).
    rewrite !report_fst. split; [apply report_snd|]; apply Hx, H.
  - split; reflexivity.
Qed.

(** C2 on the first revision (lines 109-132, [WHERE username = $2]).  With
    the row of alice stored, blocking "alice" affects that row and is
    answered 200, while blocking "Alice" affects no row and is answered 404;
    the second revision answers 200 to both and blocks the row. *)
Theorem first_revision_matches_case :
  userActionsHandler_rev1 (store [alice] 2) NewWriter
    (post (object [("action", Go.Str "bloquearUsuario");
                   ("username", Go.Str "alice");
                   ("is_blocked", Go.Bool true)])) =
  ({| Sql.users := [Sql.assign (Sql.set_is_blocked true) alice];
      Sql.users_id_seq := 2; Sql.outage := None;
      Sql.trace :=
        [Sql.UPDATE (Sql.set_is_blocked true) Sql.username_eq "alice"] |},
   jsonResponse NewWriter StatusOK
     (message "Ação 'bloquearUsuario' executada com sucesso!")) /\
  userActionsHandler_rev1 (store [alice] 2) NewWriter
    (post (object [("action", Go.Str "bloquearUsuario");
                   ("username", Go.Str "Alice");
                   ("is_blocked", Go.Bool true)])) =
  ({| Sql.users := [alice];
      Sql.users_id_seq := 2; Sql.outage := None;
      Sql.trace :=
        [Sql.UPDATE (Sql.set_is_blocked true) Sql.username_eq "Alice"] |},
   jsonResponse NewWriter StatusNotFound
     (message "Nenhum usuário encontrado com o nome fornecido.")) /\
  userActionsHandler (store [alice] 2) NewWriter
    (post (object [("action", Go.Str "bloquearUsuario");
                   ("username", Go.Str "Alice");
                   ("is_blocked", Go.Bool true)])) =
  ({| Sql.users := [Sql.assign (Sql.set_is_blocked true) alice];
      Sql.users_id_seq := 2; Sql.outage := None;
      Sql.trace :=
        [Sql.UPDATE (Sql.set_is_blocked true) Sql.lower_username_eq "Alice"] |},
   jsonResponse NewWriter StatusOK
     (message "Ação 'bloquearUsuario' executada com sucesso!")).
Proof. repeat split; vm_compute; reflexivity. Qed.

Lemma not_found_is_not_success w action :
  jsonResponse w StatusNotFound
    (message "Nenhum usuário encontrado com o nome fornecido.") <>
  jsonResponse w StatusOK
    (message ("Ação '" +:+ action +:+ "' executada com sucesso!")).
Proof.
  intros H. apply (f_equal Written) in H.
  rewrite !jsonResponse_Written in H.
  apply app_inv_head in H. discriminate H.
Qed.

(** C3.  When the statement of a request executes without a store error,
    the answer is the 404 envelope "Nenhum usuário encontrado com o nome
    fornecido." exactly when the affected-row count is zero and the 200
    success envelope exactly when it is not; with a zero count the table is
    as it was. *)
Theorem not_found_iff_zero_rows wh db w payload q db' n :
  statementOf wh payload = inr q ->
  Sql.Exec db q = (db', inr n) ->
  (userActionsHandlerRev wh db w (post payload) =
   (db', jsonResponse w StatusNotFound
           (message "Nenhum usuário encontrado com o nome fornecido."))
   <-> n = 0) /\
  (userActionsHandlerRev wh db w (post payload) =
   (db', jsonResponse w StatusOK
           (message ("Ação '" +:+ actionOf payload +:+
                     "' executada com sucesso!")))
   <-> n <> 0) /\
  (n = 0 -> Sql.users db' = Sql.users db).
Proof.
  intros Hq He. rewrite userActionsHandlerRev_post, Hq, He. cbn [report].
  pose proof (not_found_is_not_success w (actionOf payload)) as Hne.
  destruct (Z.eqb_spec n 0) as [->|Hn]; repeat split; try congruence.
  intros _. apply (Exec_zero_rows db q db' He).
Qed.

Lemma not_found_iff_zero_rows_witness :
  userActionsHandler (store [alice] 2) NewWriter
    (post (object [("action", Go.Str "atualizarIP");
                   ("username", Go.Str "bob");
                   ("novo_ip", Go.Str "10.0.0.7")])) =
  (Sql.sent (store [alice] 2)
     (Sql.UPDATE (Sql.set_ip "10.0.0.7") Sql.lower_username_eq "bob"),
   jsonResponse NewWriter StatusNotFound
     (message "Nenhum usuário encontrado com o nome fornecido.")).
Proof.
  apply (not_found_iff_zero_rows Sql.lower_username_eq (store [alice] 2)
           NewWriter
           (object [("action", Go.Str "atualizarIP");
                    ("username", Go.Str "bob");
                    ("novo_ip", Go.Str "10.0.0.7")])
           (Sql.UPDATE (Sql.set_ip "10.0.0.7") Sql.lower_username_eq "bob")
           _ 0); vm_compute; reflexivity.
Defined.

(** ** Creation *)

Lemma statementOf_inserir wh payload :
  actionOf payload = "inserirUsuario" ->
  statementOf wh payload =
  inr (Sql.INSERT (stringOf payload "username") (stringOf payload "password")
         (stringOf payload "renewal_date")).
Proof. intros H. unfold statementOf. rewrite H. reflexivity. Qed.

Lemma duplicate_key_In rows u r :
  In r rows -> Sql.LOWER (Sql.username r) = Sql.LOWER u ->
  Sql.duplicate_key rows u = true.
Proof.
  intros Hin Hl. unfold Sql.duplicate_key. apply existsb_exists.
  exists r. split; [exact Hin|]. apply String.eqb_eq, Hl.
Qed.

(** C4.  When the table holds a row whose username equals the requested one
    up to letter case, [inserirUsuario] is answered with the 500 envelope
    that carries the error of the store, and the table is as it was. *)
Theorem duplicate_username_fails wh db w payload r :
  actionOf payload = "inserirUsuario" ->
  In r (Sql.users db) ->
  Sql.LOWER (Sql.username r) = Sql.LOWER (stringOf payload "username") ->
  (exists err,
     snd (userActionsHandlerRev wh db w (post payload)) =
     jsonResponse w StatusInternalServerError
       (message ("Erro ao executar ação 'inserirUsuario': " +:+ err))) /\
  Sql.users (fst (userActionsHandlerRev wh db w (post payload))) =
  Sql.users db.
Proof.
  intros Ha Hin Hl.
  rewrite userActionsHandlerRev_post, (statementOf_inserir _ _ Ha), Ha.
  unfold Sql.Exec. cbn [Sql.outage Sql.sent Sql.users].
  destruct (Sql.outage db) as [e|].
  - split; [exists e|]; reflexivity.
  - rewrite (duplicate_key_In _ _ r Hin Hl).
    split; [exists Sql.unique_violation|]; reflexivity.
Qed.

Lemma duplicate_username_fails_witness :
  (exists err,
     snd (userActionsHandler (store [alice] 2) NewWriter
            (post (object [("action", Go.Str "inserirUsuario");
                           ("username", Go.Str "ALICE");
                           ("password", Go.Str "p");
                           ("renewal_date", Go.Str "2026-01-01")]))) =
     jsonResponse NewWriter StatusInternalServerError
       (message ("Erro ao executar ação 'inserirUsuario': " +:+ err))) /\
  Sql.users
    (fst (userActionsHandler (store [alice] 2) NewWriter
            (post (object [("action", Go.Str "inserirUsuario");
                           ("username", Go.Str "ALICE");
                           ("password", Go.Str "p");
                           ("renewal_date", Go.Str "2026-01-01")])))) =
  [alice].
Proof.
  apply (duplicate_username_fails Sql.lower_username_eq (store [alice] 2)
           NewWriter
           (object [("action", Go.Str "inserirUsuario");
                    ("username", Go.Str "ALICE");
                    ("password", Go.Str "p");
                    ("renewal_date", Go.Str "2026-01-01")])
           alice).
  - vm_compute. reflexivity.
  - left. reflexivity.
  - vm_compute. reflexivity.
Defined.

Lemma success_is_not_failure w action err :
  jsonResponse w StatusOK
    (message ("Ação '" +:+ action +:+ "' executada com sucesso!")) <>
  jsonResponse w StatusInternalServerError
    (message ("Erro ao executar ação '" +:+ action +:+ "': " +:+ err)).
Proof.
  intros H. apply (f_equal Written) in H.
  rewrite !jsonResponse_Written in H.
  apply app_inv_head in H. discriminate H.
Qed.

(** No request removes a row or changes an [id], and a request that adds a
    row is an [inserirUsuario] that adds exactly the row of its payload at
    the end of the table. *)
Lemma records_are_kept wh db w r :
  map Sql.id (Sql.users (fst (userActionsHandlerRev wh db w r))) =
  map Sql.id (Sql.users db) \/
  exists payload,
    r = post payload /\ actionOf payload = "inserirUsuario" /\
    Sql.users (fst (userActionsHandlerRev wh db w r)) =
    Sql.users db ++
      [Sql.inserted (Sql.users_id_seq db) (stringOf payload "username")
         (stringOf payload "password") (stringOf payload "renewal_date")].
Proof.
  destruct r as [method body].
  destruct (String.eqb method MethodPost) eqn:Em.
  2:{ left. unfold userActionsHandlerRev. cbn [Method]. rewrite Em.
      reflexivity. }
  apply String.eqb_eq in Em. subst method.
  destruct body as [|payload]; [left; reflexivity|].
  change {| Method := MethodPost; Body := Object payload |} with (post payload).
  rewrite userActionsHandlerRev_post.
  destruct (statementOf wh payload) as [m|q] eqn:Eq; [left; reflexivity|].
  rewrite report_fst.
  destruct (Exec_ids db q) as [H|(u & p & d & -> & _ & H)]; [left; exact H|].
  right. exists payload. split; [reflexivity|].
  revert Eq. unfold statementOf.
  destruct (String.eqb_spec (actionOf payload) "inserirUsuario") as [Ha|_].
  - intros [= <- <- <-]. split; [exact Ha|exact H].
  - switch ltac:(try discriminate); try discriminate.
    destruct (Go.index payload "indicacao"); discriminate.
Qed.

(** C5.  An [inserirUsuario] that is answered with the success envelope has
    added one row at the end of the table: the [id] drawn from the sequence,
    the username, password and renewal date of the payload, [is_blocked]
    false, [indicacao] 0 and no [ip].  Whatever the request, every row that
    was there is still there under its [id], and a row is added by
    [inserirUsuario] only. *)
Theorem create_adds_one_record wh db w payload :
  actionOf payload = "inserirUsuario" ->
  snd (userActionsHandlerRev wh db w (post payload)) =
  jsonResponse w StatusOK
    (message "Ação 'inserirUsuario' executada com sucesso!") ->
  Sql.users (fst (userActionsHandlerRev wh db w (post payload))) =
  Sql.users db ++
    [ {| Sql.id := Sql.users_id_seq db;
         Sql.username := stringOf payload "username";
         Sql.password := stringOf payload "password";
         Sql.is_blocked := false;
         Sql.renewal_date := stringOf payload "renewal_date";
         Sql.ip := None;
         Sql.indicacao := 0 |} ] /\
  forall r,
    map Sql.id (Sql.users (fst (userActionsHandlerRev wh db w r))) =
    map Sql.id (Sql.users db) \/
    exists payload',
      r = post payload' /\ actionOf payload' = "inserirUsuario" /\
      Sql.users (fst (userActionsHandlerRev wh db w r)) =
      Sql.users db ++
        [Sql.inserted (Sql.users_id_seq db) (stringOf payload' "username")
           (stringOf payload' "password") (stringOf payload' "renewal_date")].
Proof.
  intros Ha Hok. split; [|intros r; apply records_are_kept].
  revert Hok.
  rewrite userActionsHandlerRev_post, (statementOf_inserir _ _ Ha), Ha.
  unfold Sql.Exec. cbn [Sql.outage Sql.sent Sql.users Sql.users_id_seq].
  destruct (Sql.outage db) as [e|].
  - cbn [report snd]. intros H. symmetry in H.
    apply (success_is_not_failure w "inserirUsuario" e) in H. contradiction.
  - destruct (Sql.duplicate_key _ _).
    + cbn [report snd]. intros H. symmetry in H.
      apply (success_is_not_failure w "inserirUsuario") in H. contradiction.
    + intros _. reflexivity.
Qed.

Lemma create_adds_one_record_witness :
  Sql.users
    (fst (userActionsHandler (store [alice] 2) NewWriter
            (post (object [("action", Go.Str "inserirUsuario");
                           ("username", Go.Str "bob");
                           ("password", Go.Str "p");
                           ("renewal_date", Go.Str "2025-01-01")])))) =
  [ alice;
    {| Sql.id := 2; Sql.username := "bob"; Sql.password := "p";
       Sql.is_blocked := false; Sql.renewal_date := "2025-01-01";
       Sql.ip := None; Sql.indicacao := 0 |} ].
Proof.
  apply (create_adds_one_record Sql.lower_username_eq (store [alice] 2)
           NewWriter
           (object [("action", Go.Str "inserirUsuario");
                    ("username", Go.Str "bob");
                    ("password", Go.Str "p");
                    ("renewal_date", Go.Str "2025-01-01")]));
    vm_compute; reflexivity.
Defined.

(** ** The envelope *)

Lemma userActionsHandlerRev_outcome wh db w r :
  exists m,
    snd (userActionsHandlerRev wh db w r) =
    jsonResponse w (status (outcome wh db r)) (message m).
Proof.
  destruct r as [method body]. unfold outcome. cbn [Method Body].
  destruct (String.eqb method MethodPost) eqn:Em.
  2:{ unfold userActionsHandlerRev. cbn [Method]. rewrite Em.
      eexists. reflexivity. }
  apply String.eqb_eq in Em. subst method. cbn [negb].
  destruct body as [|payload]; [eexists; reflexivity|].
  change {| Method := MethodPost; Body := Object payload |} with (post payload).
  rewrite userActionsHandlerRev_post.
  destruct (statementOf wh payload) as [m|q]; [eexists; reflexivity|].
  destruct (Sql.Exec db q) as [db' [err|n]]; cbn [report snd];
    [eexists; reflexivity|].
  destruct (n =? 0); eexists; reflexivity.
Qed.

(** C7.  Whatever the request to the action endpoint, the handler leaves on
    a fresh writer the content type [application/json], one status code and
    one written document, an object with the single field [message]; the
    status code is 405 for a method other than POST, 400 for a validation
    error, 500 for a failure of the store, 404 when no row is affected and
    200 on success. *)
Theorem one_envelope_per_request wh db r :
  exists m,
    snd (userActionsHandlerRev wh db NewWriter r) =
    {| Header := {[ "Content-Type" := "application/json" ]};
       StatusCode := Some (status (outcome wh db r));
       Written := [JObject [("message", JString m)]] |}.
Proof.
  destruct (userActionsHandlerRev_outcome wh db NewWriter r) as [m H].
  exists m. rewrite H. apply jsonResponse_NewWriter.
Qed.

(** ** Defaulted fields *)

Lemma statementOf_zero_value wh payload k z :
  In (k, z) defaulted ->
  same_type z (Go.index payload k) = false ->
  actionOf (<[k := z]> payload) = actionOf payload /\
  statementOf wh (<[k := z]> payload) = statementOf wh payload.
Proof.
  intros Hin Hty.
  assert (Ha : actionOf (<[k := z]> payload) = actionOf payload).
  { unfold actionOf. rewrite index_insert_ne; [reflexivity|].
    cbn in Hin. intuition congruence. }
  split; [exact Ha|]. unfold statementOf. rewrite Ha.
  cbn in Hin.
  destruct Hin as [E|[E|[E|[E|[E|[E|[]]]]]]]; injection E as <- <-;
    unfold stringOf, boolOf;
    rewrite ?index_insert_eq, ?index_insert_ne by discriminate;
    match type of Hty with
    | same_type _ (Go.index payload ?key) = false =>
        destruct (Go.index payload key); try discriminate Hty; reflexivity
    end.
Qed.

Lemma statementOf_recognized wh payload :
  is_recognized (actionOf payload) = true ->
  actionOf payload <> "atualizarIndicacao" ->
  exists q, statementOf wh payload = inr q.
Proof.
  unfold is_recognized, recognized, statementOf. cbn [existsb].
  intros Hr Hn.
  destruct (String.eqb_spec (actionOf payload) "atualizarIndicacao")
    as [E|_]; [contradiction|].
  switch ltac:(eexists; reflexivity).
  discriminate Hr.
Qed.

(** C8.  A field of [defaulted] that is absent from the payload or holds a
    value of another type is read as its zero value: the request is handled
    exactly as if the payload carried the empty string (or [false] for
    [is_blocked]) there.  No validation error results: for a recognized
    action other than [atualizarIndicacao] a statement is built and sent to
    the store whatever the payload holds.  Only [indicacao] is checked: when
    it is absent or not a number, [atualizarIndicacao] is answered 400 and
    nothing is sent. *)
Theorem missing_fields_default_to_zero wh db w payload k z :
  In (k, z) defaulted ->
  same_type z (Go.index payload k) = false ->
  userActionsHandlerRev wh db w (post payload) =
  userActionsHandlerRev wh db w (post (<[k := z]> payload)) /\
  (is_recognized (actionOf payload) = true ->
   actionOf payload <> "atualizarIndicacao" ->
   exists q,
     statementOf wh payload = inr q /\
     statementOf wh (<[k := z]> payload) = inr q /\
     Sql.trace (fst (userActionsHandlerRev wh db w (post payload))) =
     Sql.trace db ++ [q]) /\
  (actionOf payload = "atualizarIndicacao" ->
   snd (Go.assert_float64 (Go.index payload "indicacao")) = false ->
   userActionsHandlerRev wh db w (post payload) =
   (db, jsonResponse w StatusBadRequest
          (message "Valor de indicação inválido"))).
Proof.
  intros Hin Hty.
  destruct (statementOf_zero_value wh payload k z Hin Hty) as [Ha Hs].
  repeat split.
  - rewrite !userActionsHandlerRev_post, Ha, Hs. reflexivity.
  - intros Hr Hn.
    destruct (statementOf_recognized wh payload Hr Hn) as [q Hq].
    exists q. rewrite Hs. repeat split; try exact Hq.
    rewrite userActionsHandlerRev_post, Hq, report_fst. apply Exec_trace.
  - intros Hi Hf.
    rewrite userActionsHandlerRev_post, (statementOf_indicacao _ _ Hi).
    destruct (Go.index payload "indicacao"); try reflexivity.
    discriminate Hf.
Qed.

Lemma missing_fields_default_to_zero_witness :
  userActionsHandler (store [alice] 2) NewWriter
    (post (object [("action", Go.Str "atualizarSenha");
                   ("username", Go.Str "alice");
                   ("new_password", Go.Float64 f3_5)])) =
  ({| Sql.users := [Sql.assign (Sql.set_password "") alice];
      Sql.users_id_seq := 2; Sql.outage := None;
      Sql.trace :=
        [Sql.UPDATE (Sql.set_password "") Sql.lower_username_eq "alice"] |},
   jsonResponse NewWriter StatusOK
     (message "Ação 'atualizarSenha' executada com sucesso!")).
Proof.
  unfold userActionsHandler.
  rewrite (proj1 (missing_fields_default_to_zero Sql.lower_username_eq
                    (store [alice] 2) NewWriter
                    (object [("action", Go.Str "atualizarSenha");
                             ("username", Go.Str "alice");
                             ("new_password", Go.Float64 f3_5)])
                    "new_password" (Go.Str "")
                    ltac:(do 3 right; left; reflexivity)
                    ltac:(vm_compute; reflexivity))).
  vm_compute. reflexivity.
Defined.

(** ** Listing *)

Lemma project_redact r : Sql.project (redact r) = Sql.project r.
Proof. reflexivity. Qed.

Lemma project_redacted rows1 rows2 :
  map redact rows1 = map redact rows2 ->
  map Sql.project rows1 = map Sql.project rows2.
Proof.
  intros H. apply (f_equal (map Sql.project)) in H.
  rewrite !map_map in H. exact H.
Qed.

(** The password takes no part in the encoding of a [User]. *)
Lemma Marshal_User_skips_Password u p :
  Marshal_User u =
  Marshal_User {| ID := ID u; Username := Username u; Password := p;
                  IsBlocked := IsBlocked u; RenewalDate := RenewalDate u;
                  IP := IP u; Indicacao := Indicacao u |}.
Proof. reflexivity. Qed.

(** The users the loop reads carry the empty password. *)
Lemma scanRows_users rows acc :
  scanRows rows acc =
  inr (acc ++
       map (fun t =>
              match t with
              | (i, u, b, d, a, n) =>
                  {| ID := i; Username := u; Password := ""; IsBlocked := b;
                     RenewalDate := d; IP := a; Indicacao := n |}
              end) rows).
Proof.
  revert acc. induction rows as [|t rows IH]; intros acc; cbn [scanRows map].
  - rewrite app_nil_r. reflexivity.
  - destruct t as [[[[[i u] b] d] a] n]. cbn [Scan].
    rewrite IH, <- app_assoc. reflexivity.
Qed.

(** C9.  Two stores that differ in the passwords of their rows only get the
    same response from the listing endpoint, whatever the request: the
    status, the header and the written document are equal. *)
Theorem listing_hides_passwords db1 db2 w r :
  differ_in_passwords_only db1 db2 ->
  snd (listarUsuariosHandler db1 w r) = snd (listarUsuariosHandler db2 w r).
Proof.
  intros (Hu & _ & Ho & _). apply project_redacted in Hu.
  unfold listarUsuariosHandler.
  destruct (negb (String.eqb (Method r) MethodGet)); [reflexivity|].
  unfold Sql.Query. cbn [Sql.outage Sql.sent Sql.users].
  rewrite Ho, Hu. destruct (Sql.outage db2); [reflexivity|].
  destruct (scanRows _ _); reflexivity.
Qed.

Lemma listing_hides_passwords_witness :
  snd (listarUsuariosHandler (store [alice] 2) NewWriter
         {| Method := MethodGet; Body := Malformed |}) =
  snd (listarUsuariosHandler
         (store [Sql.assign (Sql.set_password "hunter2") alice] 2) NewWriter
         {| Method := MethodGet; Body := Malformed |}).
Proof.
  apply (listing_hides_passwords (store [alice] 2)
           (store [Sql.assign (Sql.set_password "hunter2") alice] 2)).
  repeat split.
Defined.

(** The document written for one stored row: every column but the
    password. *)
Example listing_of_alice :
  Written
    (snd (listarUsuariosHandler (store [alice] 2) NewWriter
            {| Method := MethodGet; Body := Malformed |})) =
  [ JObject
      [ ("message", JString "Usuários listados com sucesso");
        ("data",
         JArray
           [ JObject
               [ ("id", JInt 1); ("username", JString "alice");
                 ("is_blocked", JBool false);
                 ("renewal_date", JString "2025-01-01");
                 ("ip", JNull); ("indicacao", JInt 0) ] ]) ] ].
Proof. vm_compute. reflexivity. Qed.

(** The listing handler too writes one envelope per request. *)
Lemma listarUsuariosHandler_one_envelope db w r :
  exists code resp,
    snd (listarUsuariosHandler db w r) = jsonResponse w code resp /\
    In code [StatusMethodNotAllowed; StatusInternalServerError; StatusOK].
Proof.
  unfold listarUsuariosHandler.
  destruct (negb (String.eqb (Method r) MethodGet)).
  { do 2 eexists. split; [reflexivity|]. cbn. tauto. }
  destruct (Sql.Query db) as [db' [err|rows]].
  { do 2 eexists. split; [reflexivity|]. cbn. tauto. }
  destruct (scanRows rows []);
    do 2 eexists; (split; [reflexivity|]); cbn; tauto.
Qed.

(** ** Further properties of [userActionsHandler] *)

Lemma userActionsHandlerRev_statementSent wh db w r :
  userActionsHandlerRev wh db w r =
  match statementSent wh r with
  | Some q =>
      report w
        (match Body r with Object p => actionOf p | Malformed => "" end)
        (Sql.Exec db q)
  | None => (db, snd (userActionsHandlerRev wh db w r))
  end.
Proof.
  destruct r as [method body]. unfold statementSent. cbn [Method Body].
  destruct (String.eqb method MethodPost) eqn:Em.
  2:{ unfold userActionsHandlerRev. cbn [Method]. rewrite Em. reflexivity. }
  apply String.eqb_eq in Em. subst method.
  destruct body as [|payload]; [reflexivity|].
  change {| Method := MethodPost; Body := Object payload |} with (post payload).
  rewrite userActionsHandlerRev_post.
  destruct (statementOf wh payload); reflexivity.
Qed.

(** X1.  A request to the action endpoint sends at most one statement.  It
    sends none, and hands the store back as it was, when the method is not
    POST, the body does not decode, the action is unknown or [indicacao] is
    not a number; otherwise the statement of the [switch], and nothing else,
    is added to what the store has received. *)
Theorem at_most_one_statement wh db w r :
  match statementSent wh r with
  | Some q =>
      Sql.trace (fst (userActionsHandlerRev wh db w r)) = Sql.trace db ++ [q]
  | None => fst (userActionsHandlerRev wh db w r) = db
  end.
Proof.
  rewrite (userActionsHandlerRev_statementSent wh db w r).
  destruct (statementSent wh r) as [q|]; [|reflexivity].
  rewrite report_fst. apply Exec_trace.
Qed.

(** X2.  The table changes only when the answer is 200: after a request
    answered with any other status (405, 400, 404, 500) every row is as it
    was. *)
Theorem table_changes_only_on_success wh db r :
  StatusCode (snd (userActionsHandlerRev wh db NewWriter r)) <>
  Some StatusOK ->
  Sql.users (fst (userActionsHandlerRev wh db NewWriter r)) = Sql.users db.
Proof.
  rewrite (userActionsHandlerRev_statementSent wh db NewWriter r).
  destruct (statementSent wh r) as [q|]; [|reflexivity].
  destruct (Sql.Exec db q) as [db' [err|n]] eqn:He; cbn [report].
  - intros _. cbn [fst]. rewrite (Exec_error db q db' err He). reflexivity.
  - destruct (Z.eqb_spec n 0) as [->|Hn]; cbn [fst snd].
    + intros _. apply (Exec_zero_rows db q db' He).
    + intros H. exfalso. apply H. reflexivity.
Qed.

Lemma table_changes_only_on_success_witness :
  Sql.users
    (fst (userActionsHandler (store [alice] 2) NewWriter
            (post (object [("action", Go.Str "atualizarSenha");
                           ("username", Go.Str "bob");
                           ("new_password", Go.Str "x")])))) =
  [alice].
Proof.
  apply (table_changes_only_on_success Sql.lower_username_eq
           (store [alice] 2)
           (post (object [("action", Go.Str "atualizarSenha");
                          ("username", Go.Str "bob");
                          ("new_password", Go.Str "x")]))).
  vm_compute. discriminate.
Defined.

Lemma selects_key wh u r :
  Sql.selects wh u r = String.eqb (key wh (Sql.username r)) (key wh u).
Proof. destruct wh; reflexivity. Qed.

Lemma count_rows_zero wh u rows :
  Sql.count_rows wh u rows = 0 <->
  forall r, In r rows -> Sql.selects wh u r = false.
Proof.
  unfold Sql.count_rows. induction rows as [|a rows IH].
  - split; [intros _ r []|reflexivity].
  - rewrite filter_cons. destruct (Sql.selects wh u a) eqn:E.
    + rewrite decide_True by reflexivity. cbn [length]. split; [lia|].
      intros H. specialize (H a (or_introl eq_refl)). congruence.
    + rewrite decide_False by discriminate. rewrite IH. split.
      * intros H r [<-|Hr]; [exact E|exact (H r Hr)].
      * intros H r Hr. apply H. right. exact Hr.
Qed.

Lemma Exec_UPDATE db s wh u :
  Sql.outage db = None ->
  Sql.Exec db (Sql.UPDATE s wh u) =
  (Sql.with_users (Sql.sent db (Sql.UPDATE s wh u))
     (Sql.update_rows s wh u (Sql.users db)) (Sql.users_id_seq db),
   inr (Sql.count_rows wh u (Sql.users db))).
Proof. intros H. unfold Sql.Exec. cbn [Sql.outage Sql.sent]. rewrite H. reflexivity. Qed.

Lemma Exec_down db q e :
  Sql.outage db = Some e -> Sql.Exec db q = (Sql.sent db q, inl e).
Proof. intros H. unfold Sql.Exec. cbn [Sql.outage Sql.sent]. rewrite H. reflexivity. Qed.

(** X3.  When the store is up, an updating action is answered 404 exactly
    when no stored username equals the requested one under the comparison
    of the revision (as stored for the first, up to letter case for the
    second); with any such row it is answered 200. *)
Theorem not_found_means_absent wh db w payload s u :
  statementOf wh payload = inr (Sql.UPDATE s wh u) ->
  Sql.outage db = None ->
  (snd (userActionsHandlerRev wh db w (post payload)) =
   jsonResponse w StatusNotFound
     (message "Nenhum usuário encontrado com o nome fornecido.")
   <-> forall r, In r (Sql.users db) -> key wh (Sql.username r) <> key wh u) /\
  (snd (userActionsHandlerRev wh db w (post payload)) =
   jsonResponse w StatusOK
     (message ("Ação '" +:+ actionOf payload +:+ "' executada com sucesso!"))
   <-> exists r, In r (Sql.users db) /\ key wh (Sql.username r) = key wh u).
Proof.
  intros Hq Ho.
  rewrite userActionsHandlerRev_post, Hq, (Exec_UPDATE db s wh u Ho).
  cbn [report].
  pose proof (not_found_is_not_success w (actionOf payload)) as Hne.
  pose proof (count_rows_zero wh u (Sql.users db)) as Hz.
  destruct (Z.eqb_spec (Sql.count_rows wh u (Sql.users db)) 0) as [E|E];
    cbn [snd]; split; split.
  - intros _ r Hr. apply Hz with (r := r) in E; [|exact Hr].
    rewrite selects_key in E. apply String.eqb_neq, E.
  - reflexivity.
  - intros H. contradiction.
  - intros (r & Hr & Hk). apply Hz with (r := r) in E; [|exact Hr].
    rewrite selects_key in E. apply String.eqb_neq in E. contradiction.
  - intros H. symmetry in H. contradiction.
  - intros H. exfalso. apply E, Hz. intros r Hr.
    rewrite selects_key. apply String.eqb_neq, H, Hr.
  - intros _.
    destruct (existsb (Sql.selects wh u) (Sql.users db)) eqn:Ex.
    + apply existsb_exists in Ex as (r & Hr & Hs). exists r.
      split; [exact Hr|]. rewrite selects_key in Hs.
      apply String.eqb_eq, Hs.
    + exfalso. apply E, Hz. intros r Hr.
      destruct (Sql.selects wh u r) eqn:Hs; [|reflexivity].
      assert (existsb (Sql.selects wh u) (Sql.users db) = true)
        by (apply existsb_exists; exists r; split; assumption).
      congruence.
  - reflexivity.
Qed.

Lemma not_found_means_absent_witness :
  snd (userActionsHandler_rev1 (store [alice] 2) NewWriter
         (post (object [("action", Go.Str "atualizarIP");
                        ("username", Go.Str "Alice");
                        ("novo_ip", Go.Str "10.0.0.7")]))) =
  jsonResponse NewWriter StatusNotFound
    (message "Nenhum usuário encontrado com o nome fornecido.").
Proof.
  apply (proj1 (not_found_means_absent Sql.username_eq (store [alice] 2)
                  NewWriter
                  (object [("action", Go.Str "atualizarIP");
                           ("username", Go.Str "Alice");
                           ("novo_ip", Go.Str "10.0.0.7")])
                  (Sql.set_ip "10.0.0.7") "Alice" eq_refl eq_refl)).
  intros r [<-|[]]. vm_compute. discriminate.
Defined.

Lemma statementOf_update wh payload q :
  statementOf wh payload = inr q ->
  actionOf payload <> "inserirUsuario" ->
  exists s,
    q = Sql.UPDATE s wh (stringOf payload "username") /\
    forall r,
      forget (actionOf payload) (Sql.assign s r) = forget (actionOf payload) r.
Proof.
  intros Hq Hn. revert Hq. unfold statementOf, forget.
  destruct (String.eqb_spec (actionOf payload) "inserirUsuario")
    as [E|_]; [contradiction|].
  switch ltac:(try (intros [= <-]; eexists; split; [reflexivity|];
                    intros r; reflexivity)).
  - destruct (Go.index payload "indicacao"); try discriminate.
    intros [= <-]. eexists. split; [reflexivity|]. intros r. reflexivity.
  - discriminate.
Qed.

Lemma Exec_update_users db s wh u :
  Sql.users (fst (Sql.Exec db (Sql.UPDATE s wh u))) = Sql.users db \/
  Sql.outage db = None /\
  Sql.users (fst (Sql.Exec db (Sql.UPDATE s wh u))) =
  Sql.update_rows s wh u (Sql.users db).
Proof.
  destruct (Sql.outage db) eqn:Ho.
  - left. unfold Sql.Exec. cbn [Sql.outage Sql.sent]. rewrite Ho. reflexivity.
  - right. split; [reflexivity|]. rewrite (Exec_UPDATE db s wh u Ho).
    reflexivity.
Qed.

(** X4.  An updating action changes no column but its own: the password for
    [atualizarSenha], [is_blocked] for [bloquearUsuario], [renewal_date] for
    [atualizarRenovacao], [indicacao] for [atualizarIndicacao], [ip] for
    [atualizarIP].  With that column left out, the table after the request
    is the table before it, row by row; an action that is not recognized
    changes nothing at all. *)
Theorem update_writes_one_column wh db w payload :
  actionOf payload <> "inserirUsuario" ->
  map (forget (actionOf payload))
    (Sql.users (fst (userActionsHandlerRev wh db w (post payload)))) =
  map (forget (actionOf payload)) (Sql.users db).
Proof.
  intros Hn. rewrite userActionsHandlerRev_post.
  destruct (statementOf wh payload) as [m|q] eqn:Hq; [reflexivity|].
  destruct (statementOf_update wh payload q Hq Hn) as (s & -> & Hf).
  rewrite report_fst.
  destruct (Exec_update_users db s wh (stringOf payload "username"))
    as [->|[_ ->]]; [reflexivity|].
  unfold Sql.update_rows. rewrite map_map. apply map_ext. intros r.
  destruct (Sql.selects _ _ r); [apply Hf|reflexivity].
Qed.

Lemma update_writes_one_column_witness :
  map (forget "bloquearUsuario")
    (Sql.users
       (fst (userActionsHandler (store [alice] 2) NewWriter
               (post (object [("action", Go.Str "bloquearUsuario");
                              ("username", Go.Str "ALICE");
                              ("is_blocked", Go.Bool true)]))))) =
  map (forget "bloquearUsuario") [alice].
Proof.
  apply (update_writes_one_column Sql.lower_username_eq (store [alice] 2)
           NewWriter
           (object [("action", Go.Str "bloquearUsuario");
                    ("username", Go.Str "ALICE");
                    ("is_blocked", Go.Bool true)])).
  vm_compute. discriminate.
Defined.

Lemma assign_username s r : Sql.username (Sql.assign s r) = Sql.username r.
Proof. destruct s; reflexivity. Qed.

Lemma assign_assign s r : Sql.assign s (Sql.assign s r) = Sql.assign s r.
Proof. destruct s; reflexivity. Qed.

Lemma selects_assign wh u s r :
  Sql.selects wh u (Sql.assign s r) = Sql.selects wh u r.
Proof. rewrite !selects_key, assign_username. reflexivity. Qed.

Lemma update_rows_twice s wh u rows :
  Sql.update_rows s wh u (Sql.update_rows s wh u rows) =
  Sql.update_rows s wh u rows.
Proof.
  unfold Sql.update_rows. rewrite map_map. apply map_ext. intros r.
  destruct (Sql.selects wh u r) eqn:E.
  - rewrite selects_assign, E. apply assign_assign.
  - rewrite E. reflexivity.
Qed.

Lemma count_rows_updated s wh u rows :
  Sql.count_rows wh u (Sql.update_rows s wh u rows) =
  Sql.count_rows wh u rows.
Proof.
  unfold Sql.count_rows, Sql.update_rows. f_equal.
  induction rows as [|r rows IH]; [reflexivity|].
  cbn [map]. rewrite !filter_cons.
  destruct (Sql.selects wh u r) eqn:E.
  - rewrite selects_assign, E, !decide_True by reflexivity.
    cbn [length]. rewrite IH. reflexivity.
  - rewrite E, !decide_False by discriminate. exact IH.
Qed.

(** X5.  An updating request is idempotent: sent again to the store it has
    just changed, it gets the same answer and leaves the table as the first
    run left it. *)
Theorem update_is_idempotent wh db w payload :
  actionOf payload <> "inserirUsuario" ->
  snd (userActionsHandlerRev wh
         (fst (userActionsHandlerRev wh db w (post payload))) w
         (post payload)) =
  snd (userActionsHandlerRev wh db w (post payload)) /\
  Sql.users
    (fst (userActionsHandlerRev wh
            (fst (userActionsHandlerRev wh db w (post payload))) w
            (post payload))) =
  Sql.users (fst (userActionsHandlerRev wh db w (post payload))).
Proof.
  intros Hn. rewrite !userActionsHandlerRev_post.
  destruct (statementOf wh payload) as [m|q] eqn:Hq; [split; reflexivity|].
  destruct (statementOf_update wh payload q Hq Hn) as (s & -> & _).
  rewrite !report_fst.
  set (u := stringOf payload "username").
  destruct (Sql.outage db) as [e|] eqn:Ho.
  - rewrite (Exec_down db _ e Ho). cbn [fst].
    rewrite (Exec_down (Sql.sent db _) _ e Ho). split; reflexivity.
  - rewrite (Exec_UPDATE db s wh u Ho). cbn [fst].
    rewrite Exec_UPDATE by exact Ho.
    cbn [fst snd Sql.users Sql.with_users Sql.sent].
    rewrite update_rows_twice, count_rows_updated.
    split; [apply report_snd|]; reflexivity.
Qed.

Lemma update_is_idempotent_witness :
  snd (userActionsHandler
         (fst (userActionsHandler (store [alice] 2) NewWriter
                 (post (object [("action", Go.Str "atualizarIndicacao");
                                ("username", Go.Str "alice");
                                ("indicacao", Go.Float64 f3_5)]))))
         NewWriter
         (post (object [("action", Go.Str "atualizarIndicacao");
                        ("username", Go.Str "alice");
                        ("indicacao", Go.Float64 f3_5)]))) =
  snd (userActionsHandler (store [alice] 2) NewWriter
         (post (object [("action", Go.Str "atualizarIndicacao");
                        ("username", Go.Str "alice");
                        ("indicacao", Go.Float64 f3_5)]))).
Proof.
  apply (update_is_idempotent Sql.lower_username_eq (store [alice] 2)
           NewWriter
           (object [("action", Go.Str "atualizarIndicacao");
                    ("username", Go.Str "alice");
                    ("indicacao", Go.Float64 f3_5)])).
  vm_compute. discriminate.
Defined.






(** ** The two revisions *)

Lemma selects_widens u r :
  Sql.selects Sql.username_eq u r = true ->
  Sql.selects Sql.lower_username_eq u r = true.
Proof.
  unfold Sql.selects. intros H. apply String.eqb_eq in H. rewrite H.
  apply String.eqb_refl.
Qed.

Lemma count_rows_widens u rows :
  Sql.count_rows Sql.username_eq u rows <=
  Sql.count_rows Sql.lower_username_eq u rows.
Proof.
  unfold Sql.count_rows. apply Nat2Z.inj_le.
  induction rows as [|r rows IH]; [reflexivity|].
  rewrite !filter_cons.
  destruct (Sql.selects Sql.username_eq u r) eqn:E.
  - rewrite (selects_widens u r E), !decide_True by reflexivity.
    cbn [length]. lia.
  - rewrite (decide_False (P := false = true)) by discriminate.
    destruct (decide _); cbn [length]; lia.
Qed.

Lemma statementOf_revisions payload :
  statementOf Sql.lower_username_eq payload =
  match statementOf Sql.username_eq payload with
  | inr (Sql.UPDATE s _ u) => inr (Sql.UPDATE s Sql.lower_username_eq u)
  | other => other
  end /\
  match statementOf Sql.username_eq payload with
  | inr (Sql.UPDATE _ wh _) => wh = Sql.username_eq
  | _ => True
  end.
Proof.
  unfold statementOf.
  switch ltac:(try (split; reflexivity)); [|split; reflexivity].
  destruct (Go.index payload "indicacao"); split; reflexivity.
Qed.

(** X7.  The second revision answers like the first wherever the first does
    not answer 404 "Nenhum usuário encontrado": matching without regard to
    case only turns not-found answers into successes. *)
Theorem second_revision_differs_on_not_found_only db w r :
  snd (userActionsHandler_rev1 db w r) <>
  jsonResponse w StatusNotFound
    (message "Nenhum usuário encontrado com o nome fornecido.") ->
  snd (userActionsHandler db w r) = snd (userActionsHandler_rev1 db w r).
Proof.
  unfold userActionsHandler, userActionsHandler_rev1.
  destruct r as [method body].
  destruct (String.eqb method MethodPost) eqn:Em.
  2:{ unfold userActionsHandlerRev. cbn [Method]. rewrite Em. reflexivity. }
  apply String.eqb_eq in Em. subst method.
  destruct body as [|payload]; [reflexivity|].
  change {| Method := MethodPost; Body := Object payload |} with (post payload).
  rewrite !userActionsHandlerRev_post.
  destruct (statementOf_revisions payload) as [-> Hwh].
  destruct (statementOf Sql.username_eq payload) as [m|[u p d|s wh u|]];
    try reflexivity.
  subst wh.
  destruct (Sql.outage db) as [e|] eqn:Ho.
  - rewrite !(Exec_down db _ e Ho). reflexivity.
  - rewrite !Exec_UPDATE by exact Ho. cbn [report snd].
    pose proof (count_rows_widens u (Sql.users db)) as Hle.
    assert (H0 : 0 <= Sql.count_rows Sql.username_eq u (Sql.users db))
      by (unfold Sql.count_rows; lia).
    destruct (Z.eqb_spec (Sql.count_rows Sql.username_eq u (Sql.users db)) 0)
      as [E|E].
    + intros H. exfalso. apply H. reflexivity.
    + intros _.
      destruct (Z.eqb_spec
                  (Sql.count_rows Sql.lower_username_eq u (Sql.users db)) 0);
        [lia|reflexivity].
Qed.

Lemma second_revision_differs_on_not_found_only_witness :
  snd (userActionsHandler (store [alice] 2) NewWriter
         (post (object [("action", Go.Str "atualizarRenovacao");
                        ("username", Go.Str "alice");
                        ("renewal_date", Go.Str "2027-01-01")]))) =
  snd (userActionsHandler_rev1 (store [alice] 2) NewWriter
         (post (object [("action", Go.Str "atualizarRenovacao");
                        ("username", Go.Str "alice");
                        ("renewal_date", Go.Str "2027-01-01")]))).
Proof.
  apply (second_revision_differs_on_not_found_only (store [alice] 2)
           NewWriter
           (post (object [("action", Go.Str "atualizarRenovacao");
                          ("username", Go.Str "alice");
                          ("renewal_date", Go.Str "2027-01-01")]))).
  vm_compute. discriminate.
Defined.

Lemma userActionsHandler_ignores_case_witness :
  snd (userActionsHandler (store [alice] 2) NewWriter
         (post (<["username" := Go.Str "ALICE"]>
                  (object [("action", Go.Str "atualizarIP");
                           ("novo_ip", Go.Str "10.0.0.7")])))) =
  snd (userActionsHandler (store [alice] 2) NewWriter
         (post (<["username" := Go.Str "alice"]>
                  (object [("action", Go.Str "atualizarIP");
                           ("novo_ip", Go.Str "10.0.0.7")])))).
Proof.
  apply (userActionsHandler_ignores_case (store [alice] 2) NewWriter
           (object [("action", Go.Str "atualizarIP");
                    ("novo_ip", Go.Str "10.0.0.7")])
           "ALICE" "alice").
  - vm_compute. reflexivity.
  - vm_compute. discriminate.
Defined.

(** ** One row per username *)




(** ** Whole numbers *)

(** X10.  A whole number within the range of [int] is converted to itself:
    the value bound for [indicacao] times the denominator is the
    numerator. *)
Theorem whole_number_is_kept f n d :
  fraction f = Some (n, d) ->
  whole f = true ->
  Go.fits_int (Z.quot n d) = true ->
  Go.int_of_float64 f * d = n.
Proof.
  intros Hf Hw Hfit.
  rewrite (int_of_float64_truncation f (Z.quot n d)).
  - unfold whole in Hw. rewrite Hf in Hw. apply Z.eqb_eq in Hw.
    pose proof (Z.quot_rem' n d). lia.
  - unfold truncation. rewrite Hf. reflexivity.
  - exact Hfit.
Qed.

Lemma whole_number_is_kept_witness :
  Go.int_of_float64 (S754_finite true 5 2) * 1 = -20.
Proof.
  apply (whole_number_is_kept (S754_finite true 5 2) (-20) 1);
    vm_compute; reflexivity.
Defined.

(** ** Further properties of [listarUsuariosHandler] *)

#[local] Instance id_le_total : Total Sql.id_le.
Proof.
  intros [[[[[ia ?] ?] ?] ?] ?] [[[[[ib ?] ?] ?] ?] ?]. cbn. lia.
Qed.

#[local] Instance id_le_trans : Transitive Sql.id_le.
Proof.
  intros [[[[[ia ?] ?] ?] ?] ?] [[[[[ib ?] ?] ?] ?] ?]
         [[[[[ic ?] ?] ?] ?] ?]. cbn. lia.
Qed.

(** The [User] of a tuple, as [Scan] fills it. *)
Lemma Scan_project r : Scan (Sql.project r) = inr (listed r).
Proof. reflexivity. Qed.

Lemma scanRows_scanned rows acc :
  scanRows rows acc = inr (acc ++ map scanned rows).
Proof.
  revert acc. induction rows as [|t rows IH]; intros acc; cbn [scanRows map].
  - rewrite app_nil_r. reflexivity.
  - destruct t as [[[[[i u] b] d] a] n]. cbn [Scan].
    rewrite IH, <- app_assoc. reflexivity.
Qed.

Lemma scanRows_sorted rows :
  exists us,
    scanRows (@merge_sort _ Sql.id_le (@decide_rel _ _ Sql.id_le Sql.id_le_dec)
                (map Sql.project rows)) []
    = inr us /\
    us ≡ₚ map listed rows /\
    StronglySorted ID_le us.
Proof.
  rewrite scanRows_scanned. eexists. split; [reflexivity|]. cbn [app].
  split.
  - change (map scanned ?l) with (scanned <$> l).
    rewrite (@merge_sort_Permutation _ Sql.id_le
               (@decide_rel _ _ Sql.id_le Sql.id_le_dec)).
    change (scanned <$> map Sql.project rows)
      with (map scanned (map Sql.project rows)).
    rewrite map_map. reflexivity.
  - apply (StronglySorted_fmap scanned Sql.id_le ID_le).
    + intros [[[[[ia ?] ?] ?] ?] ?] [[[[[ib ?] ?] ?] ?] ?] H. exact H.
    + apply (@StronglySorted_merge_sort _ Sql.id_le
                 (@decide_rel _ _ Sql.id_le Sql.id_le_dec));
        typeclasses eauto.
Qed.

Lemma listarUsuariosHandler_get db w r :
  Method r = MethodGet ->
  Sql.outage db = None ->
  exists us,
    listarUsuariosHandler db w r =
    (Sql.sent db Sql.SELECT,
     jsonResponse w StatusOK
       {| Message := "Usuários listados com sucesso"; Data := Some us |}) /\
    us ≡ₚ map listed (Sql.users db) /\
    StronglySorted ID_le us.
Proof.
  intros Hm Ho. unfold listarUsuariosHandler. rewrite Hm.
  change (negb (String.eqb MethodGet MethodGet)) with false. cbn match.
  unfold Sql.Query. cbn [Sql.outage Sql.sent Sql.users]. rewrite Ho.
  destruct (scanRows_sorted (Sql.users db)) as (us & Hus & Hp & Hs).
  exists us. rewrite Hus. repeat split; assumption.
Qed.

(** X11.  A GET on the listing endpoint, with the store up, is answered 200
    with every stored row exactly once, as the [User] of its six listed
    columns, in ascending order of [id]. *)
Theorem listing_is_complete_and_sorted db w r :
  Method r = MethodGet ->
  Sql.outage db = None ->
  exists us,
    snd (listarUsuariosHandler db w r) =
    jsonResponse w StatusOK
      {| Message := "Usuários listados com sucesso"; Data := Some us |} /\
    us ≡ₚ map listed (Sql.users db) /\
    StronglySorted ID_le us.
Proof.
  intros Hm Ho.
  destruct (listarUsuariosHandler_get db w r Hm Ho) as (us & -> & Hp & Hs).
  exists us. repeat split; assumption.
Qed.

Lemma listing_is_complete_and_sorted_witness :
  exists us,
    snd (listarUsuariosHandler
           (store [Sql.inserted 7 "bob" "p" "2025-01-01"; alice] 8) NewWriter
           {| Method := "GET"; Body := Malformed |}) =
    jsonResponse NewWriter StatusOK
      {| Message := "Usuários listados com sucesso"; Data := Some us |} /\
    us ≡ₚ [listed (Sql.inserted 7 "bob" "p" "2025-01-01"); listed alice] /\
    StronglySorted ID_le us.
Proof.
  apply (listing_is_complete_and_sorted
           (store [Sql.inserted 7 "bob" "p" "2025-01-01"; alice] 8) NewWriter
           {| Method := "GET"; Body := Malformed |}); reflexivity.
Defined.

(** X12.  The listing endpoint never changes the store: whatever the method
    and whether or not the store is up, the rows, the sequence and the
    outage are as before, and the only statement sent is the one [SELECT] of
    a GET. *)
Theorem listing_is_read_only db w r :
  fst (listarUsuariosHandler db w r) =
  if String.eqb (Method r) MethodGet then Sql.sent db Sql.SELECT else db.
Proof.
  unfold listarUsuariosHandler.
  destruct (String.eqb (Method r) MethodGet); [|reflexivity]. cbn [negb].
  unfold Sql.Query. cbn [Sql.outage Sql.sent].
  destruct (Sql.outage db); [reflexivity|].
  destruct (scanRows _ _); reflexivity.
Qed.

(** X13.  The listing of an empty table is written with [data] present and
    [null], not left out and not an empty array: the users are a nil slice
    stored in the [interface{}] field. *)
Theorem empty_listing_is_null db w r :
  Method r = MethodGet ->
  Sql.outage db = None ->
  Sql.users db = [] ->
  Written (snd (listarUsuariosHandler db w r)) =
  Written w ++
    [JObject [("message", JString "Usuários listados com sucesso");
              ("data", JNull)]].
Proof.
  intros Hm Ho Hu.
  destruct (listarUsuariosHandler_get db w r Hm Ho) as (us & -> & Hp & _).
  rewrite Hu in Hp. apply Permutation_nil_r in Hp. subst us. reflexivity.
Qed.

Lemma empty_listing_is_null_witness :
  Written
    (snd (listarUsuariosHandler (store [] 1) NewWriter
            {| Method := "GET"; Body := Malformed |})) =
  [JObject [("message", JString "Usuários listados com sucesso");
            ("data", JNull)]].
Proof.
  apply (empty_listing_is_null (store [] 1) NewWriter
           {| Method := "GET"; Body := Malformed |}); reflexivity.
Defined.

(** ** Writing, then listing *)

Lemma In_update_rows s wh u rows row :
  In row rows -> Sql.selects wh u row = true ->
  In (Sql.assign s row) (Sql.update_rows s wh u rows).
Proof.
  intros Hin Hs. unfold Sql.update_rows.
  apply in_map_iff. exists row. rewrite Hs. split; [reflexivity|exact Hin].
Qed.

Lemma listed_In us rows row :
  us ≡ₚ map listed rows -> In row rows -> In (listed row) us.
Proof.
  intros Hp Hin. apply list_elem_of_In. rewrite Hp.
  apply list_elem_of_In, in_map, Hin.
Qed.

(** X14.  Read after write: when an updating request finds a row of the
    requested username (under the comparison of the revision) and the store
    is up, it is answered 200 and a GET on the listing endpoint that follows
    is answered 200 with that row carrying the value just assigned. *)
Theorem listing_reflects_update wh db w w' payload g s u row :
  statementOf wh payload = inr (Sql.UPDATE s wh u) ->
  Sql.outage db = None ->
  Method g = MethodGet ->
  In row (Sql.users db) ->
  key wh (Sql.username row) = key wh u ->
  snd (userActionsHandlerRev wh db w (post payload)) =
  jsonResponse w StatusOK
    (message ("Ação '" +:+ actionOf payload +:+ "' executada com sucesso!")) /\
  exists us,
    snd (listarUsuariosHandler
           (fst (userActionsHandlerRev wh db w (post payload))) w' g) =
    jsonResponse w' StatusOK
      {| Message := "Usuários listados com sucesso"; Data := Some us |} /\
    In (listed (Sql.assign s row)) us.
Proof.
  intros Hq Ho Hg Hin Hk.
  assert (Hs : Sql.selects wh u row = true)
    by (rewrite selects_key; apply String.eqb_eq, Hk).
  rewrite userActionsHandlerRev_post, Hq, (Exec_UPDATE db s wh u Ho).
  split.
  - cbn [report].
    destruct (Z.eqb_spec (Sql.count_rows wh u (Sql.users db)) 0) as [E|_];
      [|reflexivity].
    apply count_rows_zero with (r := row) in E; [congruence|exact Hin].
  - rewrite report_fst. cbn [fst].
    destruct (listarUsuariosHandler_get
                (Sql.with_users (Sql.sent db (Sql.UPDATE s wh u))
                   (Sql.update_rows s wh u (Sql.users db))
                   (Sql.users_id_seq db)) w' g Hg Ho)
      as (us & -> & Hp & _).
    exists us. split; [reflexivity|].
    apply (listed_In us _ _ Hp). cbn [Sql.users Sql.with_users].
    apply In_update_rows; assumption.
Qed.

Lemma listing_reflects_update_witness :
  exists us,
    snd (listarUsuariosHandler
           (fst (userActionsHandler (store [alice] 2) NewWriter
                   (post (object [("action", Go.Str "bloquearUsuario");
                                  ("username", Go.Str "Alice");
                                  ("is_blocked", Go.Bool true)]))))
           NewWriter {| Method := "GET"; Body := Malformed |}) =
    jsonResponse NewWriter StatusOK
      {| Message := "Usuários listados com sucesso"; Data := Some us |} /\
    In {| ID := 1; Username := "alice"; Password := ""; IsBlocked := true;
          RenewalDate := "2025-01-01"; IP := None; Indicacao := 0 |} us.
Proof.
  apply (listing_reflects_update Sql.lower_username_eq (store [alice] 2)
           NewWriter NewWriter
           (object [("action", Go.Str "bloquearUsuario");
                    ("username", Go.Str "Alice");
                    ("is_blocked", Go.Bool true)])
           {| Method := "GET"; Body := Malformed |}
           (Sql.set_is_blocked true) "Alice" alice);
    try reflexivity.
  left. reflexivity.
Defined.

(** X15.  Create, then list: after an [inserirUsuario] answered with the
    success envelope, a GET on the listing endpoint is answered 200 with a
    user of the payload's username and renewal date that is not blocked,
    has [indicacao] 0 and no [ip]. *)
Theorem listing_shows_created_user wh db w w' payload g :
  actionOf payload = "inserirUsuario" ->
  snd (userActionsHandlerRev wh db w (post payload)) =
  jsonResponse w StatusOK
    (message "Ação 'inserirUsuario' executada com sucesso!") ->
  Method g = MethodGet ->
  exists us,
    snd (listarUsuariosHandler
           (fst (userActionsHandlerRev wh db w (post payload))) w' g) =
    jsonResponse w' StatusOK
      {| Message := "Usuários listados com sucesso"; Data := Some us |} /\
    In {| ID := Sql.users_id_seq db;
          Username := stringOf payload "username";
          Password := "";
          IsBlocked := false;
          RenewalDate := stringOf payload "renewal_date";
          IP := None;
          Indicacao := 0 |} us.
Proof.
  intros Ha Hok Hg. revert Hok.
  rewrite userActionsHandlerRev_post, (statementOf_inserir _ _ Ha), Ha.
  rewrite report_fst.
  unfold Sql.Exec. cbn [Sql.outage Sql.sent Sql.users Sql.users_id_seq].
  destruct (Sql.outage db) as [e|] eqn:Ho.
  { cbn [report snd]. intros H. symmetry in H.
    apply (success_is_not_failure w "inserirUsuario" e) in H. contradiction. }
  destruct (Sql.duplicate_key _ _).
  { cbn [report snd]. intros H. symmetry in H.
    apply (success_is_not_failure w "inserirUsuario") in H. contradiction. }
  intros _. cbn [fst].
  match goal with
  | |- context [listarUsuariosHandler ?d _ _] =>
      destruct (listarUsuariosHandler_get d w' g Hg Ho) as (us & -> & Hp & _)
  end.
  exists us. split; [reflexivity|].
  apply (listed_In us _
           (Sql.inserted (Sql.users_id_seq db) (stringOf payload "username")
              (stringOf payload "password")
              (stringOf payload "renewal_date")) Hp).
  cbn [Sql.users Sql.with_users]. apply in_or_app. right. left. reflexivity.
Qed.

Lemma listing_shows_created_user_witness :
  exists us,
    snd (listarUsuariosHandler
           (fst (userActionsHandler (store [alice] 2) NewWriter
                   (post (object [("action", Go.Str "inserirUsuario");
                                  ("username", Go.Str "bob");
                                  ("password", Go.Str "p");
                                  ("renewal_date", Go.Str "2025-01-01")]))))
           NewWriter {| Method := "GET"; Body := Malformed |}) =
    jsonResponse NewWriter StatusOK
      {| Message := "Usuários listados com sucesso"; Data := Some us |} /\
    In {| ID := 2; Username := "bob"; Password := ""; IsBlocked := false;
          RenewalDate := "2025-01-01"; IP := None; Indicacao := 0 |} us.
Proof.
  apply (listing_shows_created_user Sql.lower_username_eq (store [alice] 2)
           NewWriter NewWriter
           (object [("action", Go.Str "inserirUsuario");
                    ("username", Go.Str "bob");
                    ("password", Go.Str "p");
                    ("renewal_date", Go.Str "2025-01-01")])
           {| Method := "GET"; Body := Malformed |});
    vm_compute; reflexivity.
Defined.

(** ** Start-up *)

Lemma Getenv_empty env k :
  Os.Getenv env k = "" <-> env !! k = None \/ env !! k = Some "".
Proof.
  unfold Os.Getenv. destruct (env !! k) as [v|]; cbn.
  - split; [intros ->; right; reflexivity|intros [H|[= ->]]; congruence].
  - split; [left; reflexivity|reflexivity].
Qed.

(** X16.  [conectarBD] ends the process in [log.Fatal], before any call of
    the driver, exactly when [DATABASE_URL] is not set or is set to the
    empty string. *)
Theorem conectarBD_needs_DATABASE_URL open_error ping_error env :
  conectarBD open_error ping_error env =
  ([log_Fatal "Variável de ambiente DATABASE_URL não definida."], Exited)
  <-> env !! "DATABASE_URL" = None \/ env !! "DATABASE_URL" = Some "".
Proof.
  rewrite <- Getenv_empty. unfold conectarBD.
  destruct (String.eqb_spec (Os.Getenv env "DATABASE_URL") "") as [E|E].
  - split; [intros _; exact E|reflexivity].
  - split; [|contradiction].
    destruct (open_error _); [discriminate|].
    destruct (ping_error _); discriminate.
Qed.

(** X17.  [conectarBD] returns a handle exactly when [DATABASE_URL] is not
    empty and both [sql.Open] and [db.Ping] succeed on it; then one handle
    is open, and on every other path none is: the handle of a failed ping
    has been closed. *)
Theorem conectarBD_leaves_no_handle open_error ping_error env :
  open_handles (fst (conectarBD open_error ping_error env)) =
  match snd (conectarBD open_error ping_error env) with
  | Connected _ => 1
  | _ => 0
  end /\
  forall connStr,
    snd (conectarBD open_error ping_error env) = Connected connStr <->
    connStr = Os.Getenv env "DATABASE_URL" /\ connStr <> "" /\
    open_error connStr = None /\ ping_error connStr = None.
Proof.
  unfold conectarBD.
  destruct (String.eqb_spec (Os.Getenv env "DATABASE_URL") "") as [E|E].
  { split; [reflexivity|]. intros s. split; [discriminate|].
    intros (-> & H & _). contradiction. }
  destruct (open_error _) as [e|] eqn:Eo.
  { split; [reflexivity|]. intros s. split; [discriminate|].
    intros (-> & _ & H & _). congruence. }
  destruct (ping_error _) as [e|] eqn:Ep.
  { split; [reflexivity|]. intros s. split; [discriminate|].
    intros (-> & _ & _ & H). congruence. }
  split; [reflexivity|]. intros s. cbn [snd]. split.
  - intros [= <-]. repeat split; assumption.
  - intros (-> & _). reflexivity.
Qed.

